(** * Maxwell's demon and Landauer's principle: the simulation engines

    A shallow embedding of the simulation logic of the repository's Python
    scripts, one module per source file:

    - [Energy2D]  : Maxwell_Demon_POO_2D_energy.py (classes, 2D, debounce flag,
                    energy ledger);
    - [POO]       : Maxwell_Demon_POO.py (classes, 1D, no debounce flag);
    - [MAXXXX]    : MAXXXX.py (global arrays, gate on [|v| != 2]);
    - [MaxDEMON]  : Max_DEMON.py (global arrays, gate displaces the particle);
    - [Animated]  : Maxwell_demon_animated.py (global arrays, no clamping).

    Numbers.  Python floats are idealised as exact rationals [Q]; the decimal
    literals of the source ([0.01], [0.95], [1.05], ...) are the same decimals
    here.  [np.log(2)] is the rational value of the binary64 number that numpy
    returns.  Comparisons are the boolean tests of the source ([<], [>], [!=]).

    Rendering (matplotlib scatter, trapdoor patch, text overlay, axis limits)
    carries no decision logic and is left out; what the drawing code reads
    ([trapdoor_open]) is returned by [update]. *)

From Stdlib Require Import QArith Qabs Lqa.
From stdpp Require Import base option list.

Local Open Scope Q_scope.

(** ** Numeric helpers *)

(** Python's [a < b] on numbers, as a boolean. *)
Definition Qltb (a b : Q) : bool := negb (Qle_bool b a).

(** [int -> float] conversion in [total_bits * landauer_constant]. *)
Definition Q_of_nat (n : nat) : Q := inject_Z (Z.of_nat n).

(** [np.log(2)]: the binary64 value 0x1.62e42fefa39efp-1. *)
Definition np_log2 : Q := 6243314768165359 # 9007199254740992.

(** ** Maxwell_Demon_POO_2D_energy.py *)

Module Energy2D.

Record Particle := mkParticle {
  x : Q;
  y : Q;
  velocity_x : Q;
  velocity_y : Q;
  cut_velocity : Q;
  processed : bool
}.

(** [Particle.__init__]: a new particle has not been processed. *)
Definition Particle_init (x y velocity_x velocity_y cut_velocity : Q) : Particle :=
  mkParticle x y velocity_x velocity_y cut_velocity false.

(** The test [0.95 < x < 1.05] of [move] and [update]. *)
Definition in_barrier (x : Q) : bool := Qltb 0.95 x && Qltb x 1.05.

(** [Particle.move]. *)
Definition move (p : Particle) : Particle :=
  let x1 := x p + velocity_x p * 0.01 in
  let y1 := y p + velocity_y p * 0.01 in
  let '(x2, vx2) :=
    if Qltb x1 0 then (0, velocity_x p * -1)
    else if Qltb 2 x1 then (2, velocity_x p * -1)
    else (x1, velocity_x p) in
  let '(y2, vy2) :=
    if Qltb y1 (-1) then (-1, velocity_y p * -1)
    else if Qltb 1 y1 then (1, velocity_y p * -1)
    else (y1, velocity_y p) in
  let processed2 := if negb (in_barrier x2) then false else processed p in
  mkParticle x2 y2 vx2 vy2 (cut_velocity p) processed2.

(** [Particle.is_fast]. *)
Definition is_fast (p : Particle) : bool :=
  Qltb (cut_velocity p) (Qabs (velocity_x p)).

Record MaxwellDemon := mkDemon {
  n_particles : nat;
  demon_cut_velocity : Q;
  memory_bits : list bool;
  energy_cost : list Q;
  bit_history : list nat;
  landauer_constant : Q;
  particles : list Particle
}.

(** [MaxwellDemon.__init__], given the sampled initial coordinates and
    velocities [(x, y, velocity_x, velocity_y)] of the particles. *)
Definition MaxwellDemon_init (cut : Q) (samples : list (Q * Q * Q * Q)) : MaxwellDemon :=
  {| n_particles := length samples;
     demon_cut_velocity := cut;
     memory_bits := [];
     energy_cost := [];
     bit_history := [];
     landauer_constant := np_log2;
     particles :=
       map (fun '(x0, y0, vx0, vy0) => Particle_init x0 y0 vx0 vy0 cut) samples |}.

(** The variables the loop of [update] threads through its iterations:
    the locals [trapdoor_open] and [new_bits_added], and [self.memory_bits]. *)
Record Frame := mkFrame {
  trapdoor_open : bool;
  new_bits_added : nat;
  bits : list bool
}.

Definition bounce (p : Particle) : Particle :=
  mkParticle (x p) (y p) (velocity_x p * -1) (velocity_y p) (cut_velocity p) (processed p).

Definition mark (p : Particle) : Particle :=
  mkParticle (x p) (y p) (velocity_x p) (velocity_y p) (cut_velocity p) true.

(** [trapdoor_open = True; self.memory_bits.append(True); new_bits_added += 1]. *)
Definition let_through (f : Frame) : Frame :=
  mkFrame true (new_bits_added f + 1) (bits f ++ [true]).

(** The demon's logic on one particle that has just moved. *)
Definition gate (p : Particle) (f : Frame) : Particle * Frame :=
  if in_barrier (x p) && negb (processed p) then
    let p := mark p in
    if is_fast p then
      if Qltb 0 (velocity_x p) then (bounce p, f)
      else (p, let_through f)
    else
      if Qltb 0 (velocity_x p) then (p, let_through f)
      else (bounce p, f)
  else (p, f).

(** One iteration of [for particle in self.particles]. *)
Definition visit (p : Particle) (f : Frame) : Particle * Frame :=
  gate (move p) f.

Fixpoint for_particles (ps : list Particle) (f : Frame) : list Particle * Frame :=
  match ps with
  | [] => ([], f)
  | p :: ps =>
      let '(p', f1) := visit p f in
      let '(ps', f2) := for_particles ps f1 in
      (p' :: ps', f2)
  end.

(** [MaxwellDemon.update]; the second component is [trapdoor_open]. *)
Definition update (d : MaxwellDemon) : MaxwellDemon * bool :=
  let '(ps, f) := for_particles (particles d) (mkFrame false 0 (memory_bits d)) in
  if (0 <? new_bits_added f)%nat then
    let total_bits := length (bits f) in
    let energy := Q_of_nat total_bits * landauer_constant d in
    ({| n_particles := n_particles d;
        demon_cut_velocity := demon_cut_velocity d;
        memory_bits := bits f;
        energy_cost := energy_cost d ++ [energy];
        bit_history := bit_history d ++ [total_bits];
        landauer_constant := landauer_constant d;
        particles := ps |}, trapdoor_open f)
  else
    ({| n_particles := n_particles d;
        demon_cut_velocity := demon_cut_velocity d;
        memory_bits := bits f;
        energy_cost := energy_cost d;
        bit_history := bit_history d;
        landauer_constant := landauer_constant d;
        particles := ps |}, trapdoor_open f).

(** The states a run goes through: [__init__], then any number of frames. *)
Inductive reachable : MaxwellDemon -> Prop :=
| reachable_init cut samples : reachable (MaxwellDemon_init cut samples)
| reachable_update d : reachable d -> reachable (fst (update d)).

(** One particle followed through a frame: its new state does not depend
    on the loop variables. *)
Definition step (p : Particle) : Particle :=
  fst (visit p (mkFrame false 0 [])).

(** Whether the decision rule is applied to [p] during the frame. *)
Definition judged (p : Particle) : bool :=
  in_barrier (x (move p)) && negb (processed (move p)).

(** Whether the gate opens for [p] during the frame. *)
Definition opens_for (p : Particle) : bool :=
  trapdoor_open (snd (visit p (mkFrame false 0 []))).

(** Number of particles the gate opens for during the frame. *)
Definition crossings (ps : list Particle) : nat :=
  length (List.filter opens_for ps).

(** The box [0, 2] x [-1, 1]. *)
Definition in_box (p : Particle) : Prop :=
  0 <= x p /\ x p <= 2 /\ -1 <= y p /\ y p <= 1.

Fixpoint steps (n : nat) (p : Particle) : Particle :=
  match n with
  | O => p
  | S n => step (steps n p)
  end.

(** Number of frames among the first [n] in which [p] is judged. *)
Fixpoint judgements (n : nat) (p : Particle) : nat :=
  match n with
  | O => O
  | S n => (judgements n p + (if judged (steps n p) then 1 else 0))%nat
  end.

End Energy2D.

(** ** Maxwell_Demon_POO.py *)

Module POO.

Record Particle := mkParticle {
  x : Q;
  y : Q;
  velocity : Q;
  cut_velocity : Q
}.

(** The test [0.95 < particle.x < 1.05] of [update]. *)
Definition in_barrier (x : Q) : bool := Qltb 0.95 x && Qltb x 1.05.

(** [Particle.move]. *)
Definition move (p : Particle) : Particle :=
  let x1 := x p + velocity p * 0.01 in
  if Qltb x1 0 then mkParticle 0 (y p) (velocity p * -1) (cut_velocity p)
  else if Qltb 2 x1 then mkParticle 2 (y p) (velocity p * -1) (cut_velocity p)
  else mkParticle x1 (y p) (velocity p) (cut_velocity p).

(** [Particle.is_fast]. *)
Definition is_fast (p : Particle) : bool :=
  Qltb (cut_velocity p) (Qabs (velocity p)).

Record MaxwellDemon := mkDemon {
  n_particles : nat;
  demon_cut_velocity : Q;
  memory_bits : list bool;
  particles : list Particle
}.

(** The local [trapdoor_open] and [self.memory_bits] during the loop. *)
Record Frame := mkFrame {
  trapdoor_open : bool;
  bits : list bool
}.

Definition bounce (p : Particle) : Particle :=
  mkParticle (x p) (y p) (velocity p * -1) (cut_velocity p).

(** [trapdoor_open = True; self.memory_bits.append(True)]. *)
Definition let_through (f : Frame) : Frame :=
  mkFrame true (bits f ++ [true]).

(** The demon's logic on one particle that has just moved. *)
Definition gate (p : Particle) (f : Frame) : Particle * Frame :=
  if in_barrier (x p) then
    if is_fast p then
      if Qltb 0 (velocity p) then (bounce p, f)
      else if Qltb (velocity p) 0 then (p, let_through f)
      else (p, f)
    else
      if Qltb 0 (velocity p) then (p, let_through f)
      else if Qltb (velocity p) 0 then (bounce p, f)
      else (p, f)
  else (p, f).

Definition visit (p : Particle) (f : Frame) : Particle * Frame :=
  gate (move p) f.

Fixpoint for_particles (ps : list Particle) (f : Frame) : list Particle * Frame :=
  match ps with
  | [] => ([], f)
  | p :: ps =>
      let '(p', f1) := visit p f in
      let '(ps', f2) := for_particles ps f1 in
      (p' :: ps', f2)
  end.

(** [MaxwellDemon.update]; the second component is [trapdoor_open]. *)
Definition update (d : MaxwellDemon) : MaxwellDemon * bool :=
  let '(ps, f) := for_particles (particles d) (mkFrame false (memory_bits d)) in
  ({| n_particles := n_particles d;
      demon_cut_velocity := demon_cut_velocity d;
      memory_bits := bits f;
      particles := ps |}, trapdoor_open f).

Definition step (p : Particle) : Particle :=
  fst (visit p (mkFrame false [])).

(** Whether the decision rule is applied to [p] during the frame. *)
Definition judged (p : Particle) : bool := in_barrier (x (move p)).

Fixpoint steps (n : nat) (p : Particle) : Particle :=
  match n with
  | O => p
  | S n => step (steps n p)
  end.

Fixpoint judgements (n : nat) (p : Particle) : nat :=
  match n with
  | O => O
  | S n => (judgements n p + (if judged (steps n p) then 1 else 0))%nat
  end.

End POO.

(** ** The scripts on global numpy arrays

    [positions] and [velocities] are arrays of [n_particles] floats, read and
    written at index [i]; a read outside the array raises [IndexError], which
    is [None] here.  An iteration of [for i in range(n_particles)] touches
    index [i] only: it is written as a function of the locals [x] and [v]
    standing for [positions[i]] and [velocities[i]], stored back at the end
    of the iteration. *)

(** [for i in range(n): body], with a body that may raise. *)
Fixpoint for_range {S : Type} (body : nat -> S -> option S) (range : list nat) (s : S)
  : option S :=
  match range with
  | [] => Some s
  | i :: range => s' ← body i s; for_range body range s'
  end.

Record World := mkWorld {
  positions : list Q;
  velocities : list Q;
  memory_bits : list bool
}.

(** The module constant [n_particles = 20] of the three scripts. *)
Definition n_particles : nat := 20.

(** One iteration, from its effect [k] on the locals [x], [v],
    [memory_bits] and [trapdoor_open]. *)
Definition at_index (k : Q -> Q -> list bool -> bool -> Q * Q * list bool * bool)
    (i : nat) (s : World * bool) : option (World * bool) :=
  let '(w, trapdoor_open) := s in
  x ← positions w !! i;
  v ← velocities w !! i;
  let '(x', v', bits', open') := k x v (memory_bits w) trapdoor_open in
  Some (mkWorld (<[i:=x']> (positions w)) (<[i:=v']> (velocities w)) bits', open').

Module MAXXXX.

(** Movement and rebound on the walls of the box. *)
Definition rebound (x v : Q) : Q * Q :=
  let x := x + v * 0.01 in
  if Qltb x 0 then (0, v * -1)
  else if Qltb 2 x then (2, v * -1)
  else (x, v).

(** The test [0.98 < positions[i] < 1.02]. *)
Definition in_barrier (x : Q) : bool := Qltb 0.98 x && Qltb x 1.02.

(** The demon's logic near [x = 1]. *)
Definition demon (x v : Q) (bits : list bool) (trapdoor_open : bool)
  : Q * Q * list bool * bool :=
  if in_barrier x then
    if negb (Qeq_bool (Qabs v) 2) then (x, v, bits ++ [true], true)
    else (x, v * -1, bits, trapdoor_open)
  else (x, v, bits, trapdoor_open).

Definition body : nat -> World * bool -> option (World * bool) :=
  at_index (fun x v bits trapdoor_open =>
              let '(x, v) := rebound x v in demon x v bits trapdoor_open).

(** [update(frame)]; the second component is [trapdoor_open]. *)
Definition update (w : World) : option (World * bool) :=
  for_range body (seq 0 n_particles) (w, false).

(** Whether the gate opens for a particle at [x] with velocity [v] when the
    frame starts. *)
Definition opens_for (x v : Q) : bool :=
  let '(x, v) := rebound x v in
  let '(_, _, _, trapdoor_open) := demon x v [] false in trapdoor_open.

(** The same for the particle at index [i]. *)
Definition opens_at (w : World) (i : nat) : bool :=
  match positions w !! i, velocities w !! i with
  | Some x, Some v => opens_for x v
  | _, _ => false
  end.

(** Number of particles the gate opens for during the frame. *)
Definition crossings (w : World) : nat :=
  length (List.filter (opens_at w) (seq 0 n_particles)).

End MAXXXX.

Module MaxDEMON.

Definition rebound (x v : Q) : Q * Q :=
  let x := x + v * 0.01 in
  if Qltb x 0 then (0, v * -1)
  else if Qltb 2 x then (2, v * -1)
  else (x, v).

Definition in_barrier (x : Q) : bool := Qltb 0.98 x && Qltb x 1.02.

(** The zone near the trapdoor: fast particles go from A to B, slow ones
    from B to A, the others bounce. *)
Definition demon (x v : Q) (bits : list bool) (trapdoor_open : bool)
  : Q * Q * list bool * bool :=
  if in_barrier x then
    if Qltb x 1.0 && Qltb 2.0 (Qabs v) then (x + 0.04, v, bits ++ [true], true)
    else if Qltb 1.0 x && Qltb (Qabs v) 2.0 then (x - 0.04, v, bits ++ [true], true)
    else (x, v * -1, bits, trapdoor_open)
  else (x, v, bits, trapdoor_open).

Definition body : nat -> World * bool -> option (World * bool) :=
  at_index (fun x v bits trapdoor_open =>
              let '(x, v) := rebound x v in demon x v bits trapdoor_open).

(** [update(frame)] on the arrays and the frame counter [t]. *)
Definition update (s : World * nat) : option (World * nat * bool) :=
  let '(w, t) := s in
  r ← for_range body (seq 0 n_particles) (w, false);
  Some (r.1, (t + 1)%nat, r.2).

End MaxDEMON.

Module Animated.

(** [positions[i] += velocities[i]], then the rebound on the edges: the
    velocity is reversed, the position is left where it is. *)
Definition rebound (x v : Q) : Q * Q :=
  let x := x + v in
  if Qltb x 0 || Qltb 2 x then (x, v * -1) else (x, v).

(** The demon opens the trapdoor for a particle on the left going right. *)
Definition demon (x v : Q) (bits : list bool) (trapdoor_open : bool)
  : Q * Q * list bool * bool :=
  if (Qltb 0.98 x && Qltb x 1.0) && (Qltb 2 v && Qltb v 4)
  then (x, v, bits ++ [true], true)
  else (x, v, bits, trapdoor_open).

Definition body : nat -> World * bool -> option (World * bool) :=
  at_index (fun x v bits trapdoor_open =>
              let '(x, v) := rebound x v in demon x v bits trapdoor_open).

Definition update (w : World) : option (World * bool) :=
  for_range body (seq 0 n_particles) (w, false).

End Animated.

(** ** What the drawing code reads *)

(** The colour names ['red'] and ['blue'] handed to the scatter plot. *)
Inductive colour := red | blue.

Module Energy2DView.

(** [Particle.get_colour]. *)
Definition get_colour (p : Energy2D.Particle) : colour :=
  if Energy2D.is_fast p then red else blue.

(** [Particle.get_position]. *)
Definition get_position (p : Energy2D.Particle) : Q * Q :=
  (Energy2D.x p, Energy2D.y p).

(** [sum(1 for p in self.particles if p.x < 1)] of the info text. *)
Definition particles_in_A (ps : list Energy2D.Particle) : nat :=
  length (List.filter (fun p => Qltb (Energy2D.x p) 1) ps).

(** [sum(1 for p in self.particles if p.x >= 1)] of the info text. *)
Definition particles_in_B (ps : list Energy2D.Particle) : nat :=
  length (List.filter (fun p => Qle_bool 1 (Energy2D.x p)) ps).

End Energy2DView.

Module POOView.

(** [Particle.get_colour]. *)
Definition get_colour (p : POO.Particle) : colour :=
  if POO.is_fast p then red else blue.

(** [Particle.get_position]. *)
Definition get_position (p : POO.Particle) : Q * Q :=
  (POO.x p, POO.y p).

(** Whether the gate opens for [p] during the frame. *)
Definition opens_for (p : POO.Particle) : bool :=
  POO.trapdoor_open (POO.visit p (POO.mkFrame false [])).2.

(** Number of particles the gate opens for during the frame. *)
Definition crossings (ps : list POO.Particle) : nat :=
  length (List.filter opens_for ps).

End POOView.

(** The loop bodies of the three scripts on the locals, and what one
    iteration makes of a particle at [x] with velocity [v]. *)
Module Script.

Definition maxxxx (x v : Q) (bits : list bool) (trapdoor_open : bool)
  : Q * Q * list bool * bool :=
  let '(x, v) := MAXXXX.rebound x v in MAXXXX.demon x v bits trapdoor_open.

Definition max_demon (x v : Q) (bits : list bool) (trapdoor_open : bool)
  : Q * Q * list bool * bool :=
  let '(x, v) := MaxDEMON.rebound x v in MaxDEMON.demon x v bits trapdoor_open.

Definition animated (x v : Q) (bits : list bool) (trapdoor_open : bool)
  : Q * Q * list bool * bool :=
  let '(x, v) := Animated.rebound x v in Animated.demon x v bits trapdoor_open.

Definition new_x (k : Q -> Q -> list bool -> bool -> Q * Q * list bool * bool)
    (x v : Q) : Q := (k x v [] false).1.1.1.

Definition new_v (k : Q -> Q -> list bool -> bool -> Q * Q * list bool * bool)
    (x v : Q) : Q := (k x v [] false).1.1.2.

Definition opens (k : Q -> Q -> list bool -> bool -> Q * Q * list bool * bool)
    (x v : Q) : bool := (k x v [] false).2.


(** [np.where(np.abs(velocities) > 2, 'red', 'blue')] of MAXXXX.py and
    Max_DEMON.py. *)
Definition colours (w : World) : list colour :=
  map (fun v => if Qltb 2 (Qabs v) then red else blue) (velocities w).

(** A frame that turned the arrays of [w] into those of [w'], particle by
    particle: the first [n_particles] entries are what one iteration makes of
    them, the other entries and the lengths are kept, and the memory got one
    [True] for each of [c] particles. *)
Definition pointwise (k : Q -> Q -> list bool -> bool -> Q * Q * list bool * bool)
    (w w' : World) (trapdoor_open : bool) (c : nat) : Prop :=
  length (positions w') = length (positions w)
  /\ length (velocities w') = length (velocities w)
  /\ (forall i x v, (i < n_particles)%nat ->
                    positions w !! i = Some x -> velocities w !! i = Some v ->
                    positions w' !! i = Some (new_x k x v)
                    /\ velocities w' !! i = Some (new_v k x v))
  /\ (forall i, (n_particles <= i)%nat ->
                positions w' !! i = positions w !! i
                /\ velocities w' !! i = velocities w !! i)
  /\ (c <= n_particles)%nat
  /\ memory_bits w' = memory_bits w ++ replicate c true
  /\ trapdoor_open = (0 <? c)%nat.

End Script.

(** ** Crossings the gate allows

    A crossing is allowed when the particle is judged and the decision rule
    does not turn it back; this is read off the tests of the gate, not off
    what the gate records. *)
Module Crossing.

(** Maxwell_Demon_POO_2D_energy.py: in the zone after the move, not yet
    processed, and either fast and not moving right or slow and moving
    right. *)
Definition e2d_allows (p : Energy2D.Particle) : bool :=
  let m := Energy2D.move p in
  (Energy2D.in_barrier (Energy2D.x m) && negb (Energy2D.processed m))
  && xorb (Energy2D.is_fast m) (Qltb 0 (Energy2D.velocity_x m)).

(** MAXXXX.py: in the zone after the move, with a speed other than 2. *)
Definition maxxxx_allows (x v : Q) : bool :=
  let '(x1, v1) := MAXXXX.rebound x v in
  MAXXXX.in_barrier x1 && negb (Qeq_bool (Qabs v1) 2).

Definition maxxxx_allows_at (w : World) (i : nat) : bool :=
  match positions w !! i, velocities w !! i with
  | Some x, Some v => maxxxx_allows x v
  | _, _ => false
  end.

End Crossing.

(** * Properties *)

(** ** Arithmetic of the boolean tests *)

Lemma Qltb_lt (a b : Q) : Qltb a b = true <-> a < b.
Proof.
  unfold Qltb. rewrite negb_true_iff, <- not_true_iff_false, Qle_bool_iff.
  split; [apply Qnot_le_lt | apply Qlt_not_le].
Qed.

Lemma Qltb_ge (a b : Q) : Qltb a b = false <-> b <= a.
Proof.
  unfold Qltb. rewrite negb_false_iff. apply Qle_bool_iff.
Qed.

(** [v *= -1] is the negation of [v], as a syntactic equality on [Q]. *)
Lemma Qmult_m1 (v : Q) : v * -1 = - v.
Proof.
  destruct v as [n d]. unfold Qmult, Qopp. cbn [Qnum Qden].
  f_equal; [ lia | apply Pos.mul_1_r ].
Qed.

Lemma Qabs_Qopp (v : Q) : Qabs (- v) = Qabs v.
Proof. destruct v as [n d]. simpl. now rewrite Z.abs_opp. Qed.

(** A number that is neither positive nor negative is its own negation. *)
Lemma Qopp_zero (v : Q) : Qltb 0 v = false -> Qltb v 0 = false -> - v = v.
Proof.
  rewrite !Qltb_ge. destruct v as [n d]. unfold Qle, Qopp. simpl.
  intros H1 H2. f_equal. lia.
Qed.

(** ** Maxwell_Demon_POO_2D_energy.py: one particle through a frame *)

(** Case analysis on the wall tests of [Energy2D.move]. *)
Ltac e2d_walls p :=
  unfold Energy2D.move;
  destruct (Qltb (Energy2D.x p + Energy2D.velocity_x p * 0.01) 0) eqn:?;
  [ | destruct (Qltb 2 (Energy2D.x p + Energy2D.velocity_x p * 0.01)) eqn:? ];
  (destruct (Qltb (Energy2D.y p + Energy2D.velocity_y p * 0.01) (-1)) eqn:?;
   [ | destruct (Qltb 1 (Energy2D.y p + Energy2D.velocity_y p * 0.01)) eqn:? ]);
  cbn [Energy2D.x Energy2D.y Energy2D.velocity_x Energy2D.velocity_y
       Energy2D.cut_velocity Energy2D.processed].

(** Case analysis on the tests of [Energy2D.gate]. *)
Ltac e2d_gate :=
  unfold Energy2D.gate;
  repeat match goal with
         | |- context [if ?b then _ else _] => destruct b eqn:?
         end;
  cbn [fst snd Energy2D.x Energy2D.y Energy2D.velocity_x Energy2D.velocity_y
       Energy2D.cut_velocity Energy2D.processed Energy2D.bounce Energy2D.mark
       Energy2D.trapdoor_open Energy2D.bits Energy2D.new_bits_added
       Energy2D.let_through] in *.

Lemma e2d_gate_x p f : Energy2D.x (Energy2D.gate p f).1 = Energy2D.x p.
Proof. e2d_gate; reflexivity. Qed.

Lemma e2d_gate_y p f : Energy2D.y (Energy2D.gate p f).1 = Energy2D.y p.
Proof. e2d_gate; reflexivity. Qed.

Lemma e2d_gate_velocity_y p f :
  Energy2D.velocity_y (Energy2D.gate p f).1 = Energy2D.velocity_y p.
Proof. e2d_gate; reflexivity. Qed.

Lemma e2d_gate_cut p f :
  Energy2D.cut_velocity (Energy2D.gate p f).1 = Energy2D.cut_velocity p.
Proof. e2d_gate; reflexivity. Qed.

Lemma e2d_gate_processed p f :
  Energy2D.processed (Energy2D.gate p f).1
  = Energy2D.in_barrier (Energy2D.x p) || Energy2D.processed p.
Proof.
  unfold Energy2D.gate.
  destruct (Energy2D.in_barrier (Energy2D.x p)) eqn:Hin, (Energy2D.processed p) eqn:Hp;
    cbn [andb negb orb fst]; try assumption.
  repeat match goal with
         | |- context [if ?b then _ else _] => destruct b
         end; reflexivity.
Qed.

(** The new state of the particle does not depend on the loop variables. *)
Lemma e2d_gate_fst p f f' : (Energy2D.gate p f).1 = (Energy2D.gate p f').1.
Proof. e2d_gate; reflexivity. Qed.

Lemma e2d_visit_fst p f : (Energy2D.visit p f).1 = Energy2D.step p.
Proof. unfold Energy2D.step, Energy2D.visit. apply e2d_gate_fst. Qed.

(** The loop variables change only when the gate opens. *)
Lemma e2d_visit_snd p f :
  (Energy2D.visit p f).2
  = if Energy2D.opens_for p then Energy2D.let_through f else f.
Proof.
  unfold Energy2D.opens_for, Energy2D.visit. e2d_gate; reflexivity || discriminate.
Qed.

Lemma e2d_move_processed p :
  Energy2D.processed (Energy2D.move p)
  = Energy2D.in_barrier (Energy2D.x (Energy2D.move p)) && Energy2D.processed p.
Proof.
  e2d_walls p;
    match goal with |- context [Energy2D.in_barrier ?a] => destruct (Energy2D.in_barrier a) end;
    reflexivity.
Qed.

Lemma e2d_step_x p : Energy2D.x (Energy2D.step p) = Energy2D.x (Energy2D.move p).
Proof. unfold Energy2D.step, Energy2D.visit. apply e2d_gate_x. Qed.

(** After a frame the flag tells whether the particle is in the zone. *)
Lemma e2d_step_processed p :
  Energy2D.processed (Energy2D.step p) = Energy2D.in_barrier (Energy2D.x (Energy2D.step p)).
Proof.
  rewrite e2d_step_x. unfold Energy2D.step, Energy2D.visit.
  rewrite e2d_gate_processed, e2d_move_processed.
  destruct (Energy2D.in_barrier _), (Energy2D.processed p); reflexivity.
Qed.






(** What the gate does in a frame, by whether the particle is judged. *)
Lemma e2d_visit_by_judgement q f :
  let m := Energy2D.move q in
  (Energy2D.judged q = true ->
   Energy2D.visit q f
   = if xorb (Energy2D.is_fast m) (Qltb 0 (Energy2D.velocity_x m))
     then (Energy2D.mark m, Energy2D.let_through f)
     else (Energy2D.bounce (Energy2D.mark m), f))
  /\ (Energy2D.judged q = false -> Energy2D.visit q f = (m, f)).
Proof.
  intros m. subst m. unfold Energy2D.judged, Energy2D.visit, Energy2D.gate.
  destruct (Energy2D.in_barrier (Energy2D.x (Energy2D.move q))
            && negb (Energy2D.processed (Energy2D.move q))); split; intros H;
    try discriminate; try reflexivity.
  change (Energy2D.is_fast (Energy2D.mark (Energy2D.move q)))
    with (Energy2D.is_fast (Energy2D.move q)).
  change (Energy2D.velocity_x (Energy2D.mark (Energy2D.move q)))
    with (Energy2D.velocity_x (Energy2D.move q)).
  now destruct (Energy2D.is_fast (Energy2D.move q)),
               (Qltb 0 (Energy2D.velocity_x (Energy2D.move q))).
Qed.






(** The flagged variant on the same particle alone in the box: two frames
    in the zone, one bit. *)
Example e2d_two_frames_one_bit :
  let d := Energy2D.MaxwellDemon_init 2 [(1, 0, 1, 0)] in
  Energy2D.memory_bits (Energy2D.update (Energy2D.update d).1).1 = [true].
Proof. reflexivity. Qed.

(** The same particle alone in the box: two frames, two bits. *)
Example poo_two_frames_two_bits :
  let d := POO.mkDemon 1 2 [] [POO.mkParticle 1 0 1 2] in
  POO.memory_bits (POO.update (POO.update d).1).1 = [true; true].
Proof. reflexivity. Qed.

(** ** The decision rule of the gate *)

Lemma e2d_is_fast_iff p :
  Energy2D.is_fast p = true <-> Energy2D.cut_velocity p < Qabs (Energy2D.velocity_x p).
Proof. apply Qltb_lt. Qed.

Lemma poo_is_fast_iff p :
  POO.is_fast p = true <-> POO.cut_velocity p < Qabs (POO.velocity p).
Proof. apply Qltb_lt. Qed.

(** Turn the boolean tests in the context into order facts. *)
Ltac order_facts :=
  repeat match goal with
         | H : Qltb _ _ = true |- _ => apply Qltb_lt in H
         | H : Qltb _ _ = false |- _ => apply Qltb_ge in H
         | H : Energy2D.is_fast _ = true |- _ => apply e2d_is_fast_iff in H
         | H : Energy2D.is_fast _ = false |- _ =>
             apply not_true_iff_false in H; rewrite e2d_is_fast_iff in H
         | H : POO.is_fast _ = true |- _ => apply poo_is_fast_iff in H
         | H : POO.is_fast _ = false |- _ =>
             apply not_true_iff_false in H; rewrite poo_is_fast_iff in H
         end.

(** C2.  At the moment a particle is judged: a fast particle moving toward
    increasing x has its velocity.x negated and commits no bit; a fast particle
    moving the other way continues and commits exactly one bit; a slow particle
    moving toward increasing x continues and commits exactly one bit; a slow
    particle moving the other way has its velocity.x negated and commits no
    bit.  This holds for the gate with the [processed] flag and for the gate
    without it. *)
Theorem gate_decision_rule :
  (forall (p : Energy2D.Particle) (f : Energy2D.Frame),
      Energy2D.in_barrier (Energy2D.x p) = true ->
      Energy2D.processed p = false ->
      let v := Energy2D.velocity_x p in
      let fast := Energy2D.cut_velocity p < Qabs v in
      let bounced :=
        (Energy2D.mkParticle (Energy2D.x p) (Energy2D.y p) (- v) (Energy2D.velocity_y p)
           (Energy2D.cut_velocity p) true, f) in
      let passed :=
        (Energy2D.mkParticle (Energy2D.x p) (Energy2D.y p) v (Energy2D.velocity_y p)
           (Energy2D.cut_velocity p) true,
         Energy2D.mkFrame true (Energy2D.new_bits_added f + 1) (Energy2D.bits f ++ [true])) in
      (fast -> 0 < v -> Energy2D.gate p f = bounced) /\
      (fast -> v < 0 -> Energy2D.gate p f = passed) /\
      (~ fast -> 0 < v -> Energy2D.gate p f = passed) /\
      (~ fast -> v < 0 -> Energy2D.gate p f = bounced))
  /\
  (forall (p : POO.Particle) (f : POO.Frame),
      POO.in_barrier (POO.x p) = true ->
      let v := POO.velocity p in
      let fast := POO.cut_velocity p < Qabs v in
      let bounced := (POO.mkParticle (POO.x p) (POO.y p) (- v) (POO.cut_velocity p), f) in
      let passed := (p, POO.mkFrame true (POO.bits f ++ [true])) in
      (fast -> 0 < v -> POO.gate p f = bounced) /\
      (fast -> v < 0 -> POO.gate p f = passed) /\
      (~ fast -> 0 < v -> POO.gate p f = passed) /\
      (~ fast -> v < 0 -> POO.gate p f = bounced)).
Proof.
  split.
  - intros p f Hin Hp v fast bounced passed. subst v fast bounced passed.
    unfold Energy2D.gate. rewrite Hin, Hp. cbn [andb negb].
    unfold Energy2D.bounce, Energy2D.let_through, Energy2D.is_fast.
    cbn [Energy2D.mark Energy2D.x Energy2D.y Energy2D.velocity_x Energy2D.velocity_y
         Energy2D.cut_velocity Energy2D.processed].
    rewrite Qmult_m1.
    destruct (Qltb (Energy2D.cut_velocity p) (Qabs (Energy2D.velocity_x p))) eqn:Hf,
             (Qltb 0 (Energy2D.velocity_x p)) eqn:Hv; order_facts;
      repeat split; intros; try reflexivity; exfalso; lra.
  - intros p f Hin v fast bounced passed. subst v fast bounced passed.
    unfold POO.gate. rewrite Hin. unfold POO.bounce, POO.let_through, POO.is_fast.
    rewrite Qmult_m1.
    destruct (Qltb (POO.cut_velocity p) (Qabs (POO.velocity p))) eqn:Hf,
             (Qltb 0 (POO.velocity p)) eqn:Hv, (Qltb (POO.velocity p) 0) eqn:Hw; order_facts;
      repeat split; intros; try reflexivity; exfalso; lra.
Qed.

Lemma gate_decision_rule_witness :
  Energy2D.gate (Energy2D.mkParticle 1 0 3 0 2 false) (Energy2D.mkFrame false 0 [])
  = (Energy2D.mkParticle 1 0 (- 3) 0 2 true, Energy2D.mkFrame false 0 [])
  /\ POO.gate (POO.mkParticle 1 0 1 2) (POO.mkFrame false [])
     = (POO.mkParticle 1 0 1 2, POO.mkFrame true [true]).
Proof.
  split.
  - refine (proj1 (proj1 gate_decision_rule (Energy2D.mkParticle 1 0 3 0 2 false)
                     (Energy2D.mkFrame false 0 []) _ _) _ _); reflexivity.
  - refine (proj1 (proj2 (proj2 (proj2 gate_decision_rule (POO.mkParticle 1 0 1 2)
                     (POO.mkFrame false []) _))) _ _); [reflexivity | | reflexivity].
    vm_compute. discriminate.
Defined.

(** ** A particle at rest in the zone *)

Lemma Qeq_zero_opp (v : Q) : v == 0 -> - v = v.
Proof.
  intros H. apply Qopp_zero; apply Qltb_ge; rewrite H; apply Qle_refl.
Qed.

Lemma Qabs_zero_le (v c : Q) : v == 0 -> 0 <= c -> Qltb c (Qabs v) = false.
Proof.
  intros Hv Hc. apply Qltb_ge. rewrite Hv. exact Hc.
Qed.

(** C6 as the code has it.  A particle in the zone with velocity.x equal to 0
    (and a threshold that is not negative) commits no bit and keeps its
    position and its zero velocity.  With the [processed] flag the judgement
    still sets the flag, and the particle is not looked at again while the
    flag is set; without the flag the particle is left exactly as it was. *)
Theorem stationary_particle_in_zone :
  (forall (p : Energy2D.Particle) (f : Energy2D.Frame),
      Energy2D.in_barrier (Energy2D.x p) = true ->
      Energy2D.velocity_x p == 0 ->
      0 <= Energy2D.cut_velocity p ->
      Energy2D.gate p f
      = (Energy2D.mkParticle (Energy2D.x p) (Energy2D.y p) (Energy2D.velocity_x p)
           (Energy2D.velocity_y p) (Energy2D.cut_velocity p) true, f))
  /\
  (forall (p : POO.Particle) (f : POO.Frame),
      POO.in_barrier (POO.x p) = true ->
      POO.velocity p == 0 ->
      POO.gate p f = (p, f)).
Proof.
  split.
  - intros p f Hin Hv Hc. unfold Energy2D.gate. rewrite Hin. cbn [andb].
    assert (Hslow : Energy2D.is_fast (Energy2D.mark p) = false)
      by (apply Qabs_zero_le; assumption).
    assert (Hpos : Qltb 0 (Energy2D.velocity_x (Energy2D.mark p)) = false)
      by (apply Qltb_ge; cbn; rewrite Hv; apply Qle_refl).
    destruct (Energy2D.processed p) eqn:Hp; cbn [negb].
    + destruct p; cbn in *; now subst.
    + rewrite Hslow, Hpos. unfold Energy2D.bounce. cbn. now rewrite Qmult_m1, Qeq_zero_opp.
  - intros p f Hin Hv. unfold POO.gate. rewrite Hin.
    assert (Hpos : Qltb 0 (POO.velocity p) = false)
      by (apply Qltb_ge; rewrite Hv; apply Qle_refl).
    assert (Hneg : Qltb (POO.velocity p) 0 = false)
      by (apply Qltb_ge; rewrite Hv; apply Qle_refl).
    rewrite Hpos, Hneg. now destruct (POO.is_fast p).
Qed.

Lemma stationary_particle_in_zone_witness :
  Energy2D.gate (Energy2D.mkParticle 1 0 0 0 2 false) (Energy2D.mkFrame false 0 [])
  = (Energy2D.mkParticle 1 0 0 0 2 true, Energy2D.mkFrame false 0 [])
  /\ POO.gate (POO.mkParticle 1 0 0 2) (POO.mkFrame false [])
     = (POO.mkParticle 1 0 0 2, POO.mkFrame false []).
Proof.
  split.
  - refine (proj1 stationary_particle_in_zone (Energy2D.mkParticle 1 0 0 0 2 false)
              (Energy2D.mkFrame false 0 []) _ _ _).
    + reflexivity.
    + reflexivity.
    + vm_compute. discriminate.
  - refine (proj2 stationary_particle_in_zone (POO.mkParticle 1 0 0 2)
              (POO.mkFrame false []) _ _); reflexivity.
Defined.

(** C6 as stated fails with the [processed] flag: a particle at rest that is
    judged has its flag set. *)
Lemma stationary_particle_is_marked :
  ~ (forall (p : Energy2D.Particle) (f : Energy2D.Frame),
        Energy2D.in_barrier (Energy2D.x p) = true ->
        Energy2D.velocity_x p == 0 ->
        Energy2D.processed p = false ->
        Energy2D.processed (Energy2D.gate p f).1 = false).
Proof.
  intros H.
  specialize (H (Energy2D.mkParticle 1 0 0 0 2 false) (Energy2D.mkFrame false 0 [])).
  cbv in H. discriminate H; reflexivity.
Qed.

(** ** What the gate touches *)

(** C7 as the code has it.  In the class-based variants the gate leaves the
    position (and y, velocity_y, the threshold) of a judged particle alone,
    and either negates velocity.x without committing a bit (for a particle
    at rest the negation changes nothing) or leaves velocity.x as it is and
    commits exactly one bit.  The gate of
    Max_DEMON.py is different: a particle it lets through is displaced by
    0.04 across the dividing line, its velocity unchanged. *)
Theorem gate_frame :
  (forall (p : Energy2D.Particle) (f : Energy2D.Frame),
      let r := Energy2D.gate p f in
      Energy2D.x r.1 = Energy2D.x p /\ Energy2D.y r.1 = Energy2D.y p /\
      Energy2D.velocity_y r.1 = Energy2D.velocity_y p /\
      Energy2D.cut_velocity r.1 = Energy2D.cut_velocity p /\
      (Energy2D.in_barrier (Energy2D.x p) = true ->
       Energy2D.processed p = false ->
       (Energy2D.velocity_x r.1 = - Energy2D.velocity_x p /\ r.2 = f) \/
       (Energy2D.velocity_x r.1 = Energy2D.velocity_x p /\
        r.2 = Energy2D.mkFrame true (Energy2D.new_bits_added f + 1)
                (Energy2D.bits f ++ [true]))))
  /\
  (forall (p : POO.Particle) (f : POO.Frame),
      let r := POO.gate p f in
      POO.x r.1 = POO.x p /\ POO.y r.1 = POO.y p /\
      POO.cut_velocity r.1 = POO.cut_velocity p /\
      (POO.in_barrier (POO.x p) = true ->
       (POO.velocity r.1 = - POO.velocity p /\ r.2 = f) \/
       (POO.velocity r.1 = POO.velocity p /\
        r.2 = POO.mkFrame true (POO.bits f ++ [true]))))
  /\
  (forall (x v : Q) (bits : list bool) (trapdoor_open : bool),
      MaxDEMON.in_barrier x = true ->
      (x < 1 -> 2 < Qabs v ->
       MaxDEMON.demon x v bits trapdoor_open = (x + 0.04, v, bits ++ [true], true)) /\
      (1 < x -> Qabs v < 2 ->
       MaxDEMON.demon x v bits trapdoor_open = (x - 0.04, v, bits ++ [true], true))).
Proof.
  split; [|split].
  - intros p f r. subst r.
    rewrite e2d_gate_x, e2d_gate_y, e2d_gate_velocity_y, e2d_gate_cut.
    repeat split. intros Hin Hp.
    unfold Energy2D.gate. rewrite Hin, Hp. cbn [andb negb].
    destruct (Energy2D.is_fast (Energy2D.mark p)),
             (Qltb 0 (Energy2D.velocity_x (Energy2D.mark p)));
      cbn; rewrite ?Qmult_m1; auto.
  - intros p f r. subst r. unfold POO.gate.
    destruct (POO.in_barrier (POO.x p)); [|repeat split; discriminate].
    assert (Hrest : Qltb 0 (POO.velocity p) = false -> Qltb (POO.velocity p) 0 = false ->
                    POO.velocity p = - POO.velocity p)
      by (intros; symmetry; now apply Qopp_zero).
    destruct (POO.is_fast p), (Qltb 0 (POO.velocity p)), (Qltb (POO.velocity p) 0);
      cbn; rewrite ?Qmult_m1; repeat split; intros _; auto.
  - intros x v bits o Hin. unfold MaxDEMON.demon. rewrite Hin. split.
    + intros Hx Hv.
      assert (E1 : Qltb x 1.0 = true) by (apply Qltb_lt; lra).
      assert (E2 : Qltb 2.0 (Qabs v) = true) by (apply Qltb_lt; lra).
      now rewrite E1, E2.
    + intros Hx Hv.
      assert (E0 : Qltb x 1.0 = false) by (apply Qltb_ge; lra).
      assert (E1 : Qltb 1.0 x = true) by (apply Qltb_lt; lra).
      assert (E2 : Qltb (Qabs v) 2.0 = true) by (apply Qltb_lt; lra).
      now rewrite E0, E1, E2.
Qed.

Lemma gate_frame_witness :
  (let r := Energy2D.gate (Energy2D.mkParticle 1 0 1 0 2 false) (Energy2D.mkFrame false 0 []) in
   (Energy2D.velocity_x r.1 = - 1 /\ r.2 = Energy2D.mkFrame false 0 []) \/
   (Energy2D.velocity_x r.1 = 1 /\ r.2 = Energy2D.mkFrame true 1 [true]))
  /\ (let r := POO.gate (POO.mkParticle 1 0 3 2) (POO.mkFrame false []) in
      (POO.velocity r.1 = - 3 /\ r.2 = POO.mkFrame false []) \/
      (POO.velocity r.1 = 3 /\ r.2 = POO.mkFrame true [true]))
  /\ MaxDEMON.demon 0.99 3 [] false = (0.99 + 0.04, 3, [true], true).
Proof.
  split; [|split].
  - refine (proj2 (proj2 (proj2 (proj2 (proj1 gate_frame
              (Energy2D.mkParticle 1 0 1 0 2 false) (Energy2D.mkFrame false 0 []))))) _ _);
      reflexivity.
  - refine (proj2 (proj2 (proj2 (proj1 (proj2 gate_frame)
              (POO.mkParticle 1 0 3 2) (POO.mkFrame false [])))) _); reflexivity.
  - refine (proj1 (proj2 (proj2 gate_frame) 0.99 3 [] false _) _ _); reflexivity.
Defined.

(** C7 as stated fails in Max_DEMON.py: the gate moves a fast particle that
    it lets through from 0.99 to 1.03. *)
Lemma max_demon_gate_moves_particle :
  ~ (forall (x v : Q) (bits : list bool) (trapdoor_open : bool),
        (MaxDEMON.demon x v bits trapdoor_open).1.1.1 == x).
Proof.
  intros H. specialize (H 0.99 3 [] false). vm_compute in H. discriminate H.
Qed.

(** The same on a whole frame: twenty fast particles at 0.96 reach 0.99 by
    their own motion and are put at 1.03 by the gate. *)
Example max_demon_frame :
  match MaxDEMON.update (mkWorld (replicate 20 0.96) (replicate 20 3) [], O) with
  | Some (w, t, trapdoor_open) =>
      Forall (fun x => x == 1.03) (positions w) /\ length (memory_bits w) = 20%nat
      /\ t = 1%nat /\ trapdoor_open = true
  | None => False
  end.
Proof.
  vm_compute. repeat split; try reflexivity.
  repeat constructor.
Qed.

(** ** The barrier zone *)

Lemma e2d_in_barrier_iff x : Energy2D.in_barrier x = true <-> 0.95 < x /\ x < 1.05.
Proof. unfold Energy2D.in_barrier. now rewrite andb_true_iff, !Qltb_lt. Qed.

Lemma poo_in_barrier_iff x : POO.in_barrier x = true <-> 0.95 < x /\ x < 1.05.
Proof. unfold POO.in_barrier. now rewrite andb_true_iff, !Qltb_lt. Qed.

Lemma maxxxx_in_barrier_iff x : MAXXXX.in_barrier x = true <-> 0.98 < x /\ x < 1.02.
Proof. unfold MAXXXX.in_barrier. now rewrite andb_true_iff, !Qltb_lt. Qed.

(** A particle with a velocity other than 0 is not its own bounce. *)
Lemma poo_bounce_moves p :
  0 < POO.velocity p \/ POO.velocity p < 0 -> POO.bounce p <> p.
Proof.
  intros Hv H. apply (f_equal POO.velocity) in H. unfold POO.bounce in H.
  cbn [POO.velocity] in H. rewrite Qmult_m1 in H.
  assert (Hq : - POO.velocity p == POO.velocity p) by (now rewrite H).
  lra.
Qed.

Lemma poo_let_through_grows f : POO.let_through f <> f.
Proof.
  intros H. apply (f_equal (fun g => length (POO.bits g))) in H.
  unfold POO.let_through in H. cbn [POO.bits] in H. rewrite length_app in H.
  cbn [length] in H. lia.
Qed.

(** C8 as the code has it.  The zone test is strict on both sides: the gate
    evaluates a particle exactly when its x lies in the open interval
    (1 - eps, 1 + eps), with eps = 0.05 in the class-based variants and
    eps = 0.02 in MAXXXX.py.  Inside the interval an unprocessed particle is
    marked and judged (without the flag: a moving particle is turned back or
    charged a bit; in MAXXXX.py a bit is added or the velocity reversed);
    outside it, and in particular exactly at x = 1 - eps or x = 1 + eps, the
    gate leaves the particle and the memory as they are, and [move] clears
    the flag. *)
Theorem barrier_zone_open_interval :
  ((forall x : Q, Energy2D.in_barrier x = true <-> 0.95 < x /\ x < 1.05)
   /\ (forall x : Q, POO.in_barrier x = true <-> 0.95 < x /\ x < 1.05)
   /\ (forall x : Q, MAXXXX.in_barrier x = true <-> 0.98 < x /\ x < 1.02)
   /\ Energy2D.in_barrier 0.95 = false /\ Energy2D.in_barrier 1.05 = false
   /\ MAXXXX.in_barrier 0.98 = false /\ MAXXXX.in_barrier 1.02 = false)
  /\
  (forall (p : Energy2D.Particle) (f : Energy2D.Frame),
      (Energy2D.processed p = false ->
       (Energy2D.processed (Energy2D.gate p f).1 = true
        <-> 0.95 < Energy2D.x p /\ Energy2D.x p < 1.05))
      /\ (0.95 < Energy2D.x p -> Energy2D.x p < 1.05 -> Energy2D.processed p = false ->
          Energy2D.gate p f
          = if xorb (Energy2D.is_fast p) (Qltb 0 (Energy2D.velocity_x p))
            then (Energy2D.mark p, Energy2D.let_through f)
            else (Energy2D.bounce (Energy2D.mark p), f))
      /\ (Energy2D.x p <= 0.95 \/ 1.05 <= Energy2D.x p -> Energy2D.gate p f = (p, f))
      /\ (Energy2D.x (Energy2D.move p) <= 0.95 \/ 1.05 <= Energy2D.x (Energy2D.move p) ->
          Energy2D.processed (Energy2D.move p) = false))
  /\
  (forall (p : POO.Particle) (f : POO.Frame),
      (0.95 < POO.x p -> POO.x p < 1.05 ->
       0 < POO.velocity p \/ POO.velocity p < 0 ->
       POO.gate p f <> (p, f))
      /\ (POO.x p <= 0.95 \/ 1.05 <= POO.x p -> POO.gate p f = (p, f)))
  /\
  (forall (x v : Q) (bits : list bool) (trapdoor_open : bool),
      (0.98 < x -> x < 1.02 ->
       MAXXXX.demon x v bits trapdoor_open = (x, v, bits ++ [true], true)
       \/ MAXXXX.demon x v bits trapdoor_open = (x, - v, bits, trapdoor_open))
      /\ (x <= 0.98 \/ 1.02 <= x ->
          MAXXXX.demon x v bits trapdoor_open = (x, v, bits, trapdoor_open))).
Proof.
  split; [|split; [|split]].
  - split; [exact e2d_in_barrier_iff|]. split; [exact poo_in_barrier_iff|].
    split; [exact maxxxx_in_barrier_iff|]. repeat split; reflexivity.
  - intros p f. split; [|split; [|split]].
    + intros Hp. rewrite e2d_gate_processed, Hp, orb_false_r. apply e2d_in_barrier_iff.
    + intros H1 H2 Hp. unfold Energy2D.gate.
      rewrite (proj2 (e2d_in_barrier_iff _) (conj H1 H2)), Hp. cbn [andb negb].
      change (Energy2D.is_fast (Energy2D.mark p)) with (Energy2D.is_fast p).
      change (Energy2D.velocity_x (Energy2D.mark p)) with (Energy2D.velocity_x p).
      now destruct (Energy2D.is_fast p), (Qltb 0 (Energy2D.velocity_x p)).
    + intros Hout. unfold Energy2D.gate.
      assert (Energy2D.in_barrier (Energy2D.x p) = false) as ->
          by (apply not_true_iff_false; rewrite e2d_in_barrier_iff; lra).
      reflexivity.
    + intros Hout. rewrite e2d_move_processed.
      assert (Energy2D.in_barrier (Energy2D.x (Energy2D.move p)) = false) as ->
          by (apply not_true_iff_false; rewrite e2d_in_barrier_iff; lra).
      reflexivity.
  - intros p f. split.
    + intros H1 H2 Hv. unfold POO.gate.
      rewrite (proj2 (poo_in_barrier_iff _) (conj H1 H2)).
      pose proof (poo_bounce_moves p Hv) as Hb.
      pose proof (poo_let_through_grows f) as Hl.
      destruct (POO.is_fast p), (Qltb 0 (POO.velocity p)) eqn:Hpos,
               (Qltb (POO.velocity p) 0) eqn:Hneg;
        try (intros E; injection E; intros; contradiction);
        exfalso; order_facts; lra.
    + intros Hout. unfold POO.gate.
      assert (POO.in_barrier (POO.x p) = false) as ->
          by (apply not_true_iff_false; rewrite poo_in_barrier_iff; lra).
      reflexivity.
  - intros x v bits o. split.
    + intros H1 H2. unfold MAXXXX.demon.
      rewrite (proj2 (maxxxx_in_barrier_iff _) (conj H1 H2)), Qmult_m1.
      destruct (negb (Qeq_bool (Qabs v) 2)); auto.
    + intros Hout. unfold MAXXXX.demon.
      assert (MAXXXX.in_barrier x = false) as ->
          by (apply not_true_iff_false; rewrite maxxxx_in_barrier_iff; lra).
      reflexivity.
Qed.

Lemma barrier_zone_open_interval_witness :
  Energy2D.gate (Energy2D.mkParticle 0.95 0 1 0 2 false) (Energy2D.mkFrame false 0 [])
  = (Energy2D.mkParticle 0.95 0 1 0 2 false, Energy2D.mkFrame false 0 [])
  /\ Energy2D.processed
       (Energy2D.gate (Energy2D.mkParticle 0.96 0 1 0 2 false)
          (Energy2D.mkFrame false 0 [])).1 = true
  /\ POO.gate (POO.mkParticle 1.05 0 1 2) (POO.mkFrame false [])
     = (POO.mkParticle 1.05 0 1 2, POO.mkFrame false [])
  /\ POO.gate (POO.mkParticle 1.04 0 1 2) (POO.mkFrame false [])
     <> (POO.mkParticle 1.04 0 1 2, POO.mkFrame false [])
  /\ MAXXXX.demon 0.98 1 [] false = (0.98, 1, [], false).
Proof.
  split; [|split; [|split; [|split]]].
  - refine (proj1 (proj2 (proj2 (proj1 (proj2 barrier_zone_open_interval)
              (Energy2D.mkParticle 0.95 0 1 0 2 false) (Energy2D.mkFrame false 0 [])))) _).
    left. vm_compute. discriminate.
  - refine (proj2 (proj1 (proj1 (proj2 barrier_zone_open_interval)
              (Energy2D.mkParticle 0.96 0 1 0 2 false) (Energy2D.mkFrame false 0 [])) _) _);
      [reflexivity | split; reflexivity].
  - refine (proj2 (proj1 (proj2 (proj2 barrier_zone_open_interval))
              (POO.mkParticle 1.05 0 1 2) (POO.mkFrame false [])) _).
    right. vm_compute. discriminate.
  - refine (proj1 (proj1 (proj2 (proj2 barrier_zone_open_interval))
              (POO.mkParticle 1.04 0 1 2) (POO.mkFrame false [])) _ _ _);
      [reflexivity | reflexivity | left; reflexivity].
  - refine (proj2 (proj2 (proj2 (proj2 barrier_zone_open_interval)) 0.98 1 [] false) _).
    left. vm_compute. discriminate.
Defined.

(** C8 as stated fails: x = 1 - eps = 0.95 lies in the closed interval,
    but the gate does not evaluate a particle there: a slow particle moving
    right at x = 0.95 keeps a clear flag (and gets no bit). *)
Lemma barrier_zone_excludes_endpoint :
  ~ (forall (p : Energy2D.Particle) (f : Energy2D.Frame),
        Energy2D.processed p = false ->
        (Energy2D.processed (Energy2D.gate p f).1 = true
         <-> 1 - 0.05 <= Energy2D.x p /\ Energy2D.x p <= 1 + 0.05)).
Proof.
  intros H.
  destruct (H (Energy2D.mkParticle 0.95 0 1 0 2 false) (Energy2D.mkFrame false 0 []))
    as [_ H1]; [reflexivity|].
  assert (E : Energy2D.processed
                (Energy2D.gate (Energy2D.mkParticle 0.95 0 1 0 2 false)
                   (Energy2D.mkFrame false 0 [])).1 = true)
    by (apply H1; split; vm_compute; discriminate).
  vm_compute in E. discriminate E.
Qed.

(** The same particle through the gate: nothing happens at the end point,
    a bit is recorded just inside. *)
Example gate_at_the_end_point :
  Energy2D.gate (Energy2D.mkParticle 0.95 0 1 0 2 false) (Energy2D.mkFrame false 0 [])
  = (Energy2D.mkParticle 0.95 0 1 0 2 false, Energy2D.mkFrame false 0 [])
  /\ Energy2D.gate (Energy2D.mkParticle 0.96 0 1 0 2 false) (Energy2D.mkFrame false 0 [])
     = (Energy2D.mkParticle 0.96 0 1 0 2 true, Energy2D.mkFrame true 1 [true]).
Proof. split; reflexivity. Qed.

(** ** Velocities only change sign *)

Lemma e2d_move_velocity p :
  let q := Energy2D.move p in
  (Energy2D.velocity_x q = Energy2D.velocity_x p \/
   Energy2D.velocity_x q = - Energy2D.velocity_x p) /\
  (Energy2D.velocity_y q = Energy2D.velocity_y p \/
   Energy2D.velocity_y q = - Energy2D.velocity_y p) /\
  Energy2D.cut_velocity q = Energy2D.cut_velocity p.
Proof.
  e2d_walls p; rewrite ?Qmult_m1; auto.
Qed.

Lemma e2d_gate_velocity p f :
  let q := (Energy2D.gate p f).1 in
  Energy2D.velocity_x q = Energy2D.velocity_x p \/
  Energy2D.velocity_x q = - Energy2D.velocity_x p.
Proof.
  e2d_gate; rewrite ?Qmult_m1; auto.
Qed.

Lemma poo_move_velocity p :
  let q := POO.move p in
  (POO.velocity q = POO.velocity p \/ POO.velocity q = - POO.velocity p) /\
  POO.cut_velocity q = POO.cut_velocity p.
Proof.
  unfold POO.move.
  repeat match goal with
         | |- context [if ?b then _ else _] => destruct b
         end; cbn; rewrite ?Qmult_m1; auto.
Qed.

Lemma poo_gate_velocity p f :
  let q := (POO.gate p f).1 in
  (POO.velocity q = POO.velocity p \/ POO.velocity q = - POO.velocity p) /\
  POO.cut_velocity q = POO.cut_velocity p.
Proof.
  unfold POO.gate.
  repeat match goal with
         | |- context [if ?b then _ else _] => destruct b
         end; cbn; rewrite ?Qmult_m1; auto.
Qed.

Lemma e2d_step_speed p :
  Qabs (Energy2D.velocity_x (Energy2D.step p)) = Qabs (Energy2D.velocity_x p)
  /\ Qabs (Energy2D.velocity_y (Energy2D.step p)) = Qabs (Energy2D.velocity_y p)
  /\ Energy2D.cut_velocity (Energy2D.step p) = Energy2D.cut_velocity p.
Proof.
  unfold Energy2D.step, Energy2D.visit.
  destruct (e2d_move_velocity p) as (Hx & Hy & Hc).
  destruct (e2d_gate_velocity (Energy2D.move p) (Energy2D.mkFrame false 0 [])) as [Hg|Hg];
    cbn zeta in *; rewrite e2d_gate_velocity_y, e2d_gate_cut, Hg, Hc;
    destruct Hx as [-> | ->], Hy as [-> | ->]; rewrite ?Qabs_Qopp; auto.
Qed.

Lemma poo_step_speed p :
  Qabs (POO.velocity (POO.step p)) = Qabs (POO.velocity p)
  /\ POO.cut_velocity (POO.step p) = POO.cut_velocity p.
Proof.
  unfold POO.step, POO.visit.
  destruct (poo_move_velocity p) as (Hx & Hc).
  destruct (poo_gate_velocity (POO.move p) (POO.mkFrame false [])) as ([Hg|Hg] & Hgc);
    cbn zeta in *; rewrite Hgc, Hg, Hc;
    destruct Hx as [-> | ->]; rewrite ?Qabs_Qopp; auto.
Qed.

(** C10.  Boundary reflection and the gate change a velocity component only
    by negating it, so over any number of frames |velocity.x| (and
    |velocity.y|) and the threshold keep the values the particle was created
    with, and the particle stays fast or stays slow. *)
Theorem speed_class_is_conserved :
  (forall (p : Energy2D.Particle) (f : Energy2D.Frame),
      let m := Energy2D.move p in
      let g := (Energy2D.gate p f).1 in
      (Energy2D.velocity_x m = Energy2D.velocity_x p \/
       Energy2D.velocity_x m = - Energy2D.velocity_x p) /\
      (Energy2D.velocity_y m = Energy2D.velocity_y p \/
       Energy2D.velocity_y m = - Energy2D.velocity_y p) /\
      (Energy2D.velocity_x g = Energy2D.velocity_x p \/
       Energy2D.velocity_x g = - Energy2D.velocity_x p) /\
      Energy2D.velocity_y g = Energy2D.velocity_y p)
  /\
  (forall (p : Energy2D.Particle) (n : nat),
      Qabs (Energy2D.velocity_x (Energy2D.steps n p)) = Qabs (Energy2D.velocity_x p) /\
      Qabs (Energy2D.velocity_y (Energy2D.steps n p)) = Qabs (Energy2D.velocity_y p) /\
      Energy2D.is_fast (Energy2D.steps n p) = Energy2D.is_fast p)
  /\
  (forall (p : POO.Particle) (f : POO.Frame),
      let m := POO.move p in
      let g := (POO.gate p f).1 in
      (POO.velocity m = POO.velocity p \/ POO.velocity m = - POO.velocity p) /\
      (POO.velocity g = POO.velocity p \/ POO.velocity g = - POO.velocity p))
  /\
  (forall (p : POO.Particle) (n : nat),
      Qabs (POO.velocity (POO.steps n p)) = Qabs (POO.velocity p) /\
      POO.is_fast (POO.steps n p) = POO.is_fast p).
Proof.
  split; [|split; [|split]].
  - intros p f m g. subst m g.
    destruct (e2d_move_velocity p) as (Hx & Hy & _).
    repeat split; auto using e2d_gate_velocity, e2d_gate_velocity_y.
  - intros p n.
    assert (H : Qabs (Energy2D.velocity_x (Energy2D.steps n p)) = Qabs (Energy2D.velocity_x p)
                /\ Qabs (Energy2D.velocity_y (Energy2D.steps n p))
                   = Qabs (Energy2D.velocity_y p)
                /\ Energy2D.cut_velocity (Energy2D.steps n p) = Energy2D.cut_velocity p).
    { induction n as [|n (IHx & IHy & IHc)]; [auto|]. cbn [Energy2D.steps].
      destruct (e2d_step_speed (Energy2D.steps n p)) as (Hx & Hy & Hc).
      rewrite Hx, Hy, Hc. auto. }
    destruct H as (Hx & Hy & Hc). repeat split; auto.
    unfold Energy2D.is_fast. now rewrite Hx, Hc.
  - intros p f m g. subst m g.
    destruct (poo_move_velocity p) as (Hx & _).
    destruct (poo_gate_velocity p f) as (Hg & _). auto.
  - intros p n.
    assert (H : Qabs (POO.velocity (POO.steps n p)) = Qabs (POO.velocity p)
                /\ POO.cut_velocity (POO.steps n p) = POO.cut_velocity p).
    { induction n as [|n (IHx & IHc)]; [auto|]. cbn [POO.steps].
      destruct (poo_step_speed (POO.steps n p)) as (Hx & Hc).
      rewrite Hx, Hc. auto. }
    destruct H as (Hx & Hc). split; auto.
    unfold POO.is_fast. now rewrite Hx, Hc.
Qed.

(** ** Boundary containment *)

Lemma e2d_move_in_box p : Energy2D.in_box (Energy2D.move p).
Proof.
  unfold Energy2D.in_box. e2d_walls p; order_facts; repeat split; lra.
Qed.

Lemma e2d_step_in_box p : Energy2D.in_box (Energy2D.step p).
Proof.
  unfold Energy2D.in_box, Energy2D.step, Energy2D.visit.
  rewrite e2d_gate_x, e2d_gate_y. apply e2d_move_in_box.
Qed.

Lemma e2d_for_particles_cons p ps f :
  Energy2D.for_particles (p :: ps) f
  = ((Energy2D.visit p f).1 :: (Energy2D.for_particles ps (Energy2D.visit p f).2).1,
     (Energy2D.for_particles ps (Energy2D.visit p f).2).2).
Proof.
  cbn [Energy2D.for_particles].
  destruct (Energy2D.visit p f) as [p' f1]. cbn [fst snd].
  now destruct (Energy2D.for_particles ps f1).
Qed.

Lemma e2d_for_particles_fst ps f :
  (Energy2D.for_particles ps f).1 = map Energy2D.step ps.
Proof.
  revert f. induction ps as [|p ps IH]; intros f; [reflexivity|].
  rewrite e2d_for_particles_cons. cbn [fst map]. now rewrite IH, e2d_visit_fst.
Qed.

Lemma e2d_update_particles d :
  Energy2D.particles (Energy2D.update d).1 = map Energy2D.step (Energy2D.particles d).
Proof.
  unfold Energy2D.update.
  rewrite <- (e2d_for_particles_fst _ (Energy2D.mkFrame false 0 (Energy2D.memory_bits d))).
  destruct (Energy2D.for_particles _ _) as [ps f].
  now destruct (0 <? Energy2D.new_bits_added f)%nat.
Qed.

(** C5 as the code has it.  In the class-based variants, after [move] the
    position lies in [0, 2] x [-1, 1] (in [0, 2] for the one-dimensional
    variant), and it still does when the frame ends; a coordinate that went
    past a wall is set on the wall and its velocity component is negated.
    In Maxwell_demon_animated.py a particle past a wall only has its
    velocity reversed: the position is the one the motion gave. *)
Theorem boundary_containment :
  (forall p : Energy2D.Particle,
      let x1 := Energy2D.x p + Energy2D.velocity_x p * 0.01 in
      let y1 := Energy2D.y p + Energy2D.velocity_y p * 0.01 in
      let q := Energy2D.move p in
      Energy2D.in_box q /\
      (x1 < 0 -> Energy2D.x q = 0 /\ Energy2D.velocity_x q = - Energy2D.velocity_x p) /\
      (2 < x1 -> Energy2D.x q = 2 /\ Energy2D.velocity_x q = - Energy2D.velocity_x p) /\
      (y1 < -1 -> Energy2D.y q = -1 /\ Energy2D.velocity_y q = - Energy2D.velocity_y p) /\
      (1 < y1 -> Energy2D.y q = 1 /\ Energy2D.velocity_y q = - Energy2D.velocity_y p))
  /\
  (forall d : Energy2D.MaxwellDemon,
      Forall Energy2D.in_box (Energy2D.particles (Energy2D.update d).1))
  /\
  (forall p : POO.Particle,
      let x1 := POO.x p + POO.velocity p * 0.01 in
      let q := POO.move p in
      (0 <= POO.x q /\ POO.x q <= 2) /\
      (x1 < 0 -> POO.x q = 0 /\ POO.velocity q = - POO.velocity p) /\
      (2 < x1 -> POO.x q = 2 /\ POO.velocity q = - POO.velocity p))
  /\
  (forall x v : Q,
      (Animated.rebound x v).1 = x + v /\
      (x + v < 0 \/ 2 < x + v -> (Animated.rebound x v).2 = - v)).
Proof.
  split; [|split; [|split]].
  - intros p x1 y1 q. split; [apply e2d_move_in_box|].
    subst x1 y1 q. e2d_walls p; order_facts; rewrite ?Qmult_m1;
      repeat split; intros; try reflexivity; exfalso; lra.
  - intros d. rewrite e2d_update_particles. apply Forall_forall.
    intros q Hq. apply list_elem_of_fmap in Hq as (p & -> & _). apply e2d_step_in_box.
  - intros p x1 q. subst x1 q. unfold POO.move.
    destruct (Qltb (POO.x p + POO.velocity p * 0.01) 0) eqn:?;
      [| destruct (Qltb 2 (POO.x p + POO.velocity p * 0.01)) eqn:?];
      cbn [POO.x POO.velocity]; order_facts; rewrite ?Qmult_m1;
      repeat split; intros; try reflexivity; try lra; exfalso; lra.
  - intros x v. unfold Animated.rebound.
    destruct (Qltb (x + v) 0) eqn:?, (Qltb 2 (x + v)) eqn:?; cbn; order_facts;
      rewrite ?Qmult_m1; split; try reflexivity; intros [?|?]; try reflexivity; exfalso; lra.
Qed.

Lemma boundary_containment_witness :
  (Energy2D.x (Energy2D.move (Energy2D.mkParticle 0.005 0 (-1) 0 2 false)) = 0
   /\ Energy2D.velocity_x (Energy2D.move (Energy2D.mkParticle 0.005 0 (-1) 0 2 false))
      = - - 1)
  /\ (POO.x (POO.move (POO.mkParticle 1.995 0 1 2)) = 2
      /\ POO.velocity (POO.move (POO.mkParticle 1.995 0 1 2)) = - 1)
  /\ (Animated.rebound 1.5 3).2 = - 3.
Proof.
  split; [|split].
  - refine (proj1 (proj2 (proj1 boundary_containment
              (Energy2D.mkParticle 0.005 0 (-1) 0 2 false))) _). reflexivity.
  - refine (proj2 (proj2 (proj1 (proj2 (proj2 boundary_containment))
              (POO.mkParticle 1.995 0 1 2))) _). reflexivity.
  - refine (proj2 (proj2 (proj2 (proj2 boundary_containment)) 1.5 3) _).
    right. reflexivity.
Defined.

(** C5 as stated fails in Maxwell_demon_animated.py: a particle at 1.5 with
    velocity 3 is at 4.5 after the rebound on the edges. *)
Lemma animated_particle_leaves_box :
  ~ (forall x v : Q, 0 <= (Animated.rebound x v).1 /\ (Animated.rebound x v).1 <= 2).
Proof.
  intros H. destruct (H 1.5 3) as [_ H2]. vm_compute in H2. now apply H2.
Qed.

(** The same on a whole frame of twenty such particles. *)
Example animated_frame :
  match Animated.update (mkWorld (replicate 20 1.5) (replicate 20 3) []) with
  | Some (w, _) => Forall (fun x => x == 4.5) (positions w)
                   /\ Forall (fun v => v == -3) (velocities w)
  | None => False
  end.
Proof.
  vm_compute. split; repeat constructor.
Qed.

(** ** The ledger of Maxwell_Demon_POO_2D_energy.py *)

Lemma e2d_let_through_iter n f :
  Nat.iter n Energy2D.let_through f
  = Energy2D.mkFrame (Energy2D.trapdoor_open f || (0 <? n)%nat)
      (Energy2D.new_bits_added f + n) (Energy2D.bits f ++ replicate n true).
Proof.
  induction n as [|n IH].
  - destruct f. cbn. now rewrite orb_false_r, Nat.add_0_r, app_nil_r.
  - rewrite Nat.iter_succ, IH. unfold Energy2D.let_through. cbn.
    rewrite orb_true_r, <- app_assoc. f_equal; [lia|].
    f_equal. clear. induction n as [|n IH]; [reflexivity|]. cbn. now rewrite IH.
Qed.

Lemma e2d_for_particles_snd ps f :
  (Energy2D.for_particles ps f).2
  = Nat.iter (Energy2D.crossings ps) Energy2D.let_through f.
Proof.
  revert f. induction ps as [|p ps IH]; intros f; [reflexivity|].
  rewrite e2d_for_particles_cons. cbn [snd]. rewrite IH, e2d_visit_snd.
  unfold Energy2D.crossings. cbn [List.filter].
  destruct (Energy2D.opens_for p); [|reflexivity].
  cbn [length]. now rewrite Nat.iter_succ_r.
Qed.

(** [update], frame by frame, as a function of the number of crossings. *)
Lemma e2d_update_spec d :
  let n := Energy2D.crossings (Energy2D.particles d) in
  let total_bits := (length (Energy2D.memory_bits d) + n)%nat in
  (Energy2D.update d).1
  = {| Energy2D.n_particles := Energy2D.n_particles d;
       Energy2D.demon_cut_velocity := Energy2D.demon_cut_velocity d;
       Energy2D.memory_bits := Energy2D.memory_bits d ++ replicate n true;
       Energy2D.energy_cost :=
         if (0 <? n)%nat
         then Energy2D.energy_cost d ++ [Q_of_nat total_bits * Energy2D.landauer_constant d]
         else Energy2D.energy_cost d;
       Energy2D.bit_history :=
         if (0 <? n)%nat then Energy2D.bit_history d ++ [total_bits]
         else Energy2D.bit_history d;
       Energy2D.landauer_constant := Energy2D.landauer_constant d;
       Energy2D.particles := map Energy2D.step (Energy2D.particles d) |}.
Proof.
  intros n total_bits. unfold Energy2D.update.
  pose proof (e2d_for_particles_fst (Energy2D.particles d)
                (Energy2D.mkFrame false 0 (Energy2D.memory_bits d))) as H1.
  pose proof (e2d_for_particles_snd (Energy2D.particles d)
                (Energy2D.mkFrame false 0 (Energy2D.memory_bits d))) as H2.
  destruct (Energy2D.for_particles _ _) as [ps f]. cbn [fst snd] in H1, H2. subst ps f.
  rewrite e2d_let_through_iter. fold n.
  cbn [Energy2D.new_bits_added Energy2D.bits Energy2D.trapdoor_open].
  rewrite Nat.add_0_l. destruct (0 <? n)%nat; cbn [fst]; [|reflexivity].
  now rewrite length_app, length_replicate.
Qed.

Lemma e2d_update_bits d :
  length (Energy2D.memory_bits (Energy2D.update d).1)
  = (length (Energy2D.memory_bits d) + Energy2D.crossings (Energy2D.particles d))%nat.
Proof.
  rewrite e2d_update_spec. cbn. now rewrite length_app, length_replicate.
Qed.

(** What the gate opening for a particle means, in terms of the rule. *)
Lemma e2d_opens_for_spec p :
  Energy2D.opens_for p
  = Energy2D.judged p
    && (if Energy2D.is_fast (Energy2D.move p)
        then negb (Qltb 0 (Energy2D.velocity_x (Energy2D.move p)))
        else Qltb 0 (Energy2D.velocity_x (Energy2D.move p))).
Proof.
  unfold Energy2D.opens_for, Energy2D.judged, Energy2D.visit, Energy2D.gate.
  destruct (Energy2D.in_barrier (Energy2D.x (Energy2D.move p))
            && negb (Energy2D.processed (Energy2D.move p))); [|reflexivity].
  change (Energy2D.is_fast (Energy2D.mark (Energy2D.move p)))
    with (Energy2D.is_fast (Energy2D.move p)).
  change (Energy2D.velocity_x (Energy2D.mark (Energy2D.move p)))
    with (Energy2D.velocity_x (Energy2D.move p)).
  now destruct (Energy2D.is_fast (Energy2D.move p)),
               (Qltb 0 (Energy2D.velocity_x (Energy2D.move p))).
Qed.

(** C9.  A frame appends one sample (the new bit count and that count times
    the Landauer constant) to the history if the bit count changed during the
    frame, and appends nothing if it did not. *)
Theorem history_sampled_on_change (d : Energy2D.MaxwellDemon) :
  let d' := (Energy2D.update d).1 in
  let total_bits := length (Energy2D.memory_bits d') in
  (length (Energy2D.memory_bits d) <> total_bits ->
   Energy2D.bit_history d' = Energy2D.bit_history d ++ [total_bits] /\
   Energy2D.energy_cost d'
   = Energy2D.energy_cost d ++ [Q_of_nat total_bits * Energy2D.landauer_constant d])
  /\
  (length (Energy2D.memory_bits d) = total_bits ->
   Energy2D.bit_history d' = Energy2D.bit_history d /\
   Energy2D.energy_cost d' = Energy2D.energy_cost d).
Proof.
  intros d' total_bits. subst d' total_bits. rewrite e2d_update_bits, e2d_update_spec.
  cbn [Energy2D.bit_history Energy2D.energy_cost].
  destruct (Energy2D.crossings (Energy2D.particles d)) as [|n]; cbn [Nat.ltb Nat.leb];
    split; intros H; try lia; auto.
Qed.

Lemma history_sampled_on_change_witness :
  let d := Energy2D.MaxwellDemon_init 2 [(1, 0, 1, 0)] in
  Energy2D.bit_history (Energy2D.update d).1 = [1%nat]
  /\ Energy2D.bit_history (Energy2D.update (Energy2D.update d).1).1 = [1%nat].
Proof.
  split.
  - refine (proj1 (proj1 (history_sampled_on_change
              (Energy2D.MaxwellDemon_init 2 [(1, 0, 1, 0)])) _)).
    vm_compute. discriminate.
  - refine (proj1 (proj2 (history_sampled_on_change
              (Energy2D.update (Energy2D.MaxwellDemon_init 2 [(1, 0, 1, 0)])).1) _)).
    reflexivity.
Defined.

(** The samples of the history, in every state of a run. *)
Lemma e2d_ledger_invariant d :
  Energy2D.reachable d ->
  Energy2D.landauer_constant d = np_log2
  /\ Forall2 (fun b e => e = Q_of_nat b * np_log2)
       (Energy2D.bit_history d) (Energy2D.energy_cost d)
  /\ default 0%nat (last (Energy2D.bit_history d)) = length (Energy2D.memory_bits d).
Proof.
  induction 1 as [cut samples | d _ (Hc & Hs & Hl)].
  - cbn. repeat split. constructor.
  - rewrite e2d_update_spec. cbn. rewrite length_app, length_replicate.
    destruct (Energy2D.crossings (Energy2D.particles d)) as [|n]; cbn [Nat.ltb Nat.leb].
    + repeat split; auto. rewrite Hl. lia.
    + rewrite Hc. repeat split.
      * apply Forall2_app; [assumption | now repeat constructor].
      * now rewrite last_snoc.
Qed.

(** C3.  In every state of a run, the bit and energy histories have the same
    length, every sample has an energy equal to its bit count times the
    Landauer constant [np.log(2)], and the latest sample is the current one:
    its bit count is the number of bits recorded so far. *)
Theorem energy_is_bits_times_ln2 (d : Energy2D.MaxwellDemon) :
  Energy2D.reachable d ->
  Energy2D.landauer_constant d = np_log2
  /\ length (Energy2D.bit_history d) = length (Energy2D.energy_cost d)
  /\ (forall k b e,
         Energy2D.bit_history d !! k = Some b ->
         Energy2D.energy_cost d !! k = Some e ->
         e = Q_of_nat b * np_log2)
  /\ default 0%nat (last (Energy2D.bit_history d)) = length (Energy2D.memory_bits d)
  /\ (forall e,
         last (Energy2D.energy_cost d) = Some e ->
         e = Q_of_nat (length (Energy2D.memory_bits d)) * np_log2).
Proof.
  intros Hr. destruct (e2d_ledger_invariant d Hr) as (Hc & Hs & Hl).
  pose proof (Forall2_length _ _ _ Hs) as Hlen.
  repeat split; auto.
  - intros k b e Hb He. exact (Forall2_lookup_lr _ _ _ _ _ _ Hs Hb He).
  - intros e He. rewrite last_lookup in He.
    destruct (last (Energy2D.bit_history d)) as [b|] eqn:Hb.
    + cbn in Hl. subst b. rewrite last_lookup, Hlen in Hb.
      exact (Forall2_lookup_lr _ _ _ _ _ _ Hs Hb He).
    + apply last_None in Hb. rewrite Hb in Hlen. cbn in Hlen.
      symmetry in Hlen. apply length_zero_iff_nil in Hlen. now rewrite Hlen in He.
Qed.

Lemma energy_is_bits_times_ln2_witness :
  let d := (Energy2D.update (Energy2D.MaxwellDemon_init 2 [(1, 0, 1, 0)])).1 in
  Energy2D.energy_cost d !! 0%nat = Some (Q_of_nat 1 * np_log2)
  /\ (forall e, last (Energy2D.energy_cost d) = Some e ->
                e = Q_of_nat (length (Energy2D.memory_bits d)) * np_log2).
Proof.
  split; [reflexivity|].
  refine (proj2 (proj2 (proj2 (proj2 (energy_is_bits_times_ln2
            (Energy2D.update (Energy2D.MaxwellDemon_init 2 [(1, 0, 1, 0)])).1 _))))).
  apply Energy2D.reachable_update, Energy2D.reachable_init.
Defined.

(** ** Counting bits in MAXXXX.py *)

Lemma maxxxx_body_spec i w o x v :
  positions w !! i = Some x ->
  velocities w !! i = Some v ->
  exists x' v',
    MAXXXX.body i (w, o)
    = Some (mkWorld (<[i:=x']> (positions w)) (<[i:=v']> (velocities w))
              (memory_bits w ++ (if MAXXXX.opens_for x v then [true] else [])),
            o || MAXXXX.opens_for x v).
Proof.
  intros Hx Hv. unfold MAXXXX.body, at_index, MAXXXX.opens_for. rewrite Hx, Hv. cbn.
  destruct (MAXXXX.rebound x v) as [x1 v1]. unfold MAXXXX.demon.
  destruct (MAXXXX.in_barrier x1), (negb (Qeq_bool (Qabs v1) 2));
    do 2 eexists; rewrite ?app_nil_r, ?orb_false_r, ?orb_true_r; reflexivity.
Qed.

Lemma maxxxx_loop range :
  forall w o,
    NoDup range ->
    Forall (fun i => (i < length (positions w))%nat /\ (i < length (velocities w))%nat) range ->
    exists w' o',
      for_range MAXXXX.body range (w, o) = Some (w', o')
      /\ length (memory_bits w')
         = (length (memory_bits w) + length (List.filter (MAXXXX.opens_at w) range))%nat
      /\ o' = o || (0 <? length (List.filter (MAXXXX.opens_at w) range))%nat.
Proof.
  induction range as [|i range IH]; intros w o Hnd Hall.
  - exists w, o. cbn. now rewrite Nat.add_0_r, orb_false_r.
  - apply NoDup_cons in Hnd as [Hi Hnd]. apply Forall_cons in Hall as [[Hpi Hvi] Hall].
    destruct (lookup_lt_is_Some_2 _ _ Hpi) as [x Hx].
    destruct (lookup_lt_is_Some_2 _ _ Hvi) as [v Hv].
    destruct (maxxxx_body_spec i w o x v Hx Hv) as (x' & v' & Hbody).
    cbn [for_range]. rewrite Hbody. cbn [mbind option_bind].
    set (w1 := mkWorld _ _ _).
    destruct (IH w1 (o || MAXXXX.opens_for x v) Hnd) as (w' & o' & Hrun & Hlen & Ho).
    { subst w1. cbn. now rewrite !length_insert. }
    assert (Hsame : List.filter (MAXXXX.opens_at w1) range
                    = List.filter (MAXXXX.opens_at w) range).
    { apply List.filter_ext_in. intros j Hj. unfold MAXXXX.opens_at. subst w1. cbn.
      assert (i <> j) by (intros ->; apply Hi, list_elem_of_In, Hj).
      now rewrite !list_lookup_insert_ne. }
    rewrite Hsame in Hlen, Ho.
    exists w', o'. split; [exact Hrun|].
    assert (Hat : MAXXXX.opens_at w i = MAXXXX.opens_for x v)
      by (unfold MAXXXX.opens_at; now rewrite Hx, Hv).
    cbn [List.filter]. rewrite Hat.
    subst w1. cbn [memory_bits] in Hlen. rewrite length_app in Hlen.
    destruct (MAXXXX.opens_for x v); cbn [length] in *.
    + split; [lia|]. rewrite Ho. now destruct o.
    + split; [lia|]. now rewrite Ho, orb_false_r.
Qed.

Lemma e2d_opens_for_allows p : Energy2D.opens_for p = Crossing.e2d_allows p.
Proof.
  rewrite e2d_opens_for_spec. unfold Crossing.e2d_allows, Energy2D.judged.
  now destruct (Energy2D.is_fast (Energy2D.move p)),
               (Qltb 0 (Energy2D.velocity_x (Energy2D.move p))).
Qed.

Lemma maxxxx_opens_for_allows x v : MAXXXX.opens_for x v = Crossing.maxxxx_allows x v.
Proof.
  unfold MAXXXX.opens_for, Crossing.maxxxx_allows, MAXXXX.demon.
  destruct (MAXXXX.rebound x v) as [x1 v1].
  now destruct (MAXXXX.in_barrier x1), (negb (Qeq_bool (Qabs v1) 2)).
Qed.

(** C4.  A frame never lowers the bit count and raises it by exactly one
    for each crossing the gate allows during the frame, a crossing being
    allowed when the particle is judged and the decision rule does not turn
    it back: such a particle goes on with its velocity and exactly one bit is
    appended for it, any other particle leaves the memory as it is.  The
    frame reports an open trapdoor exactly when a crossing was allowed.  In
    MAXXXX.py the frame runs to its end on arrays of [n_particles] entries. *)
Theorem bit_count_grows_by_crossings :
  (forall (p : Energy2D.Particle) (f : Energy2D.Frame),
      (Crossing.e2d_allows p = true ->
       Energy2D.visit p f
       = (Energy2D.mark (Energy2D.move p),
          Energy2D.mkFrame true (Energy2D.new_bits_added f + 1)
            (Energy2D.bits f ++ [true])))
      /\ (Crossing.e2d_allows p = false -> (Energy2D.visit p f).2 = f))
  /\
  (forall d : Energy2D.MaxwellDemon,
      let n := length (List.filter Crossing.e2d_allows (Energy2D.particles d)) in
      length (Energy2D.memory_bits (Energy2D.update d).1)
      = (length (Energy2D.memory_bits d) + n)%nat
      /\ (length (Energy2D.memory_bits d)
          <= length (Energy2D.memory_bits (Energy2D.update d).1))%nat
      /\ (Energy2D.update d).2 = (0 <? n)%nat)
  /\
  (forall (x v : Q) (bits : list bool) (trapdoor_open : bool),
      let '(x1, v1) := MAXXXX.rebound x v in
      (Crossing.maxxxx_allows x v = true ->
       MAXXXX.demon x1 v1 bits trapdoor_open = (x1, v1, bits ++ [true], true))
      /\ (Crossing.maxxxx_allows x v = false ->
          (MAXXXX.demon x1 v1 bits trapdoor_open).1.2 = bits
          /\ (MAXXXX.demon x1 v1 bits trapdoor_open).2 = trapdoor_open))
  /\
  (forall w : World,
      (n_particles <= length (positions w))%nat ->
      (n_particles <= length (velocities w))%nat ->
      let n := length (List.filter (Crossing.maxxxx_allows_at w) (seq 0 n_particles)) in
      exists w' trapdoor_open,
        MAXXXX.update w = Some (w', trapdoor_open)
        /\ length (memory_bits w') = (length (memory_bits w) + n)%nat
        /\ (length (memory_bits w) <= length (memory_bits w'))%nat
        /\ trapdoor_open = (0 <? n)%nat).
Proof.
  split; [|split; [|split]].
  - intros p f. rewrite <- e2d_opens_for_allows. split; intros H.
    + rewrite e2d_opens_for_allows in H. unfold Crossing.e2d_allows in H.
      apply andb_true_iff in H as [Hj Hx].
      destruct (e2d_visit_by_judgement p f) as [Hv _]. cbn zeta in Hv.
      rewrite (Hv Hj), Hx. reflexivity.
    + rewrite e2d_visit_snd. now rewrite H.
  - intros d n.
    assert (En : n = Energy2D.crossings (Energy2D.particles d)).
    { subst n. unfold Energy2D.crossings. f_equal. apply List.filter_ext.
      intros p. symmetry. apply e2d_opens_for_allows. }
    rewrite En, e2d_update_bits. repeat split; [lia|].
    unfold Energy2D.update.
    pose proof (e2d_for_particles_snd (Energy2D.particles d)
                  (Energy2D.mkFrame false 0 (Energy2D.memory_bits d))) as H2.
    destruct (Energy2D.for_particles _ _) as [ps f]. cbn [snd] in H2. subst f.
    rewrite e2d_let_through_iter. cbn [Energy2D.new_bits_added Energy2D.trapdoor_open].
    now destruct (0 <? _)%nat.
  - intros x v bits o. unfold Crossing.maxxxx_allows, MAXXXX.demon.
    destruct (MAXXXX.rebound x v) as [x1 v1].
    destruct (MAXXXX.in_barrier x1), (negb (Qeq_bool (Qabs v1) 2)); cbn [andb fst snd];
      split; intros H; try discriminate; auto.
  - intros w Hp Hv n.
    assert (En : n = MAXXXX.crossings w).
    { subst n. unfold MAXXXX.crossings. f_equal. apply List.filter_ext.
      intros i. unfold Crossing.maxxxx_allows_at, MAXXXX.opens_at.
      destruct (positions w !! i), (velocities w !! i); try reflexivity.
      symmetry. apply maxxxx_opens_for_allows. }
    destruct (maxxxx_loop (seq 0 n_particles) w false) as (w' & o' & Hrun & Hlen & Ho).
    { apply NoDup_seq. }
    { apply Forall_forall. intros i Hi. apply elem_of_seq in Hi. lia. }
    exists w', o'. rewrite En. unfold MAXXXX.update, MAXXXX.crossings.
    repeat split; auto. lia.
Qed.

Lemma bit_count_grows_by_crossings_witness :
  Energy2D.visit (Energy2D.mkParticle 1 0 1 0 2 false) (Energy2D.mkFrame false 0 [])
  = (Energy2D.mark (Energy2D.move (Energy2D.mkParticle 1 0 1 0 2 false)),
     Energy2D.mkFrame true 1 [true])
  /\ length (Energy2D.memory_bits
               (Energy2D.update
                  (Energy2D.MaxwellDemon_init 2 [(1, 0, 1, 0); (1, 0, 3, 0)])).1) = 1%nat
  /\ exists w' trapdoor_open,
       MAXXXX.update (mkWorld (replicate 20 0.97) (replicate 20 3) [])
       = Some (w', trapdoor_open)
       /\ length (memory_bits w') = 20%nat.
Proof.
  split; [|split].
  - refine (proj1 (proj1 bit_count_grows_by_crossings
              (Energy2D.mkParticle 1 0 1 0 2 false) (Energy2D.mkFrame false 0 [])) _).
    reflexivity.
  - rewrite (proj1 (proj1 (proj2 bit_count_grows_by_crossings)
               (Energy2D.MaxwellDemon_init 2 [(1, 0, 1, 0); (1, 0, 3, 0)]))).
    reflexivity.
  - destruct (proj2 (proj2 (proj2 bit_count_grows_by_crossings))
                (mkWorld (replicate 20 0.97) (replicate 20 3) []))
      as (w' & o & Hrun & Hlen & _).
    + vm_compute. lia.
    + vm_compute. lia.
    + exists w', o. split; [exact Hrun | rewrite Hlen; reflexivity].
Defined.

(** * Further properties of the engines *)

(** ** The run of Maxwell_Demon_POO_2D_energy.py *)

Lemma e2d_chambers_cover ps :
  (Energy2DView.particles_in_A ps + Energy2DView.particles_in_B ps)%nat = length ps.
Proof.
  unfold Energy2DView.particles_in_A, Energy2DView.particles_in_B, Qltb.
  induction ps as [|p ps IH]; [reflexivity|]. cbn [List.filter].
  destruct (Qle_bool 1 (Energy2D.x p)); cbn [negb length]; lia.
Qed.

Lemma e2d_step_cut p :
  Energy2D.cut_velocity (Energy2D.step p) = Energy2D.cut_velocity p.
Proof. apply e2d_step_speed. Qed.

Lemma e2d_crossings_le ps : (Energy2D.crossings ps <= length ps)%nat.
Proof.
  unfold Energy2D.crossings. induction ps as [|p ps IH]; [reflexivity|].
  cbn [List.filter]. destruct (Energy2D.opens_for p); cbn [length]; lia.
Qed.

(** X1.  The population is fixed: in every state of a run the list of
    particles has [n_particles] entries, every particle carries the demon's
    threshold, and the two chamber counts of the info text add up to
    [n_particles]. *)
Theorem population_is_fixed (d : Energy2D.MaxwellDemon) :
  Energy2D.reachable d ->
  length (Energy2D.particles d) = Energy2D.n_particles d
  /\ Forall (fun p => Energy2D.cut_velocity p = Energy2D.demon_cut_velocity d)
       (Energy2D.particles d)
  /\ (Energy2DView.particles_in_A (Energy2D.particles d)
      + Energy2DView.particles_in_B (Energy2D.particles d))%nat
     = Energy2D.n_particles d.
Proof.
  intros Hr.
  assert (H : length (Energy2D.particles d) = Energy2D.n_particles d
              /\ Forall (fun p => Energy2D.cut_velocity p = Energy2D.demon_cut_velocity d)
                   (Energy2D.particles d)).
  { induction Hr as [cut samples | d _ (Hn & Hc)].
    - cbn. split; [apply List.length_map|].
      apply Forall_forall. intros p Hp.
      apply list_elem_of_fmap in Hp as ([[[x0 y0] vx0] vy0] & -> & _). reflexivity.
    - rewrite e2d_update_spec. cbn. split; [now rewrite List.length_map|].
      apply Forall_forall. intros q Hq.
      apply list_elem_of_fmap in Hq as (p & -> & Hp).
      rewrite e2d_step_cut. revert p Hp. now apply Forall_forall. }
  destruct H as [Hn Hc]. repeat split; auto. now rewrite e2d_chambers_cover.
Qed.

Lemma population_is_fixed_witness :
  let d := (Energy2D.update (Energy2D.MaxwellDemon_init 2 [(1, 0, 1, 0); (0.5, 0, 3, 1)])).1 in
  (Energy2DView.particles_in_A (Energy2D.particles d)
   + Energy2DView.particles_in_B (Energy2D.particles d))%nat = 2%nat.
Proof.
  refine (proj2 (proj2 (population_is_fixed
            (Energy2D.update
               (Energy2D.MaxwellDemon_init 2 [(1, 0, 1, 0); (0.5, 0, 3, 1)])).1 _))).
  apply Energy2D.reachable_update, Energy2D.reachable_init.
Defined.

(** X2.  A set flag always means that the particle is in the zone: in
    every state of a run, a particle with [processed = True] has
    [0.95 < x < 1.05], and after the first frame the flag is set exactly for
    the particles in the zone. *)
Theorem flag_means_in_zone (d : Energy2D.MaxwellDemon) :
  Energy2D.reachable d ->
  Forall (fun p => Energy2D.processed p = true ->
                   Energy2D.in_barrier (Energy2D.x p) = true)
    (Energy2D.particles d)
  /\ Forall (fun p => Energy2D.processed p = Energy2D.in_barrier (Energy2D.x p))
       (Energy2D.particles (Energy2D.update d).1).
Proof.
  intros Hr. split.
  - induction Hr as [cut samples | d _ _].
    + apply Forall_forall. intros p Hp.
      apply list_elem_of_fmap in Hp as ([[[x0 y0] vx0] vy0] & -> & _). discriminate.
    + rewrite e2d_update_particles. apply Forall_forall. intros q Hq.
      apply list_elem_of_fmap in Hq as (p & -> & _).
      now rewrite e2d_step_processed.
  - rewrite e2d_update_particles. apply Forall_forall. intros q Hq.
    apply list_elem_of_fmap in Hq as (p & -> & _). apply e2d_step_processed.
Qed.

Lemma flag_means_in_zone_witness :
  Forall (fun p => Energy2D.processed p = Energy2D.in_barrier (Energy2D.x p))
    (Energy2D.particles
       (Energy2D.update (Energy2D.MaxwellDemon_init 2 [(1, 0, 1, 0); (0.5, 0, 3, 1)])).1).
Proof.
  refine (proj2 (flag_means_in_zone
            (Energy2D.MaxwellDemon_init 2 [(1, 0, 1, 0); (0.5, 0, 3, 1)]) _)).
  apply Energy2D.reachable_init.
Defined.

(** X3.  The demon's memory is append-only: a frame keeps the bits it
    found and appends at most one [True] per particle; in every state of a
    run the memory holds nothing but [True]. *)
Theorem memory_is_append_only :
  (forall d : Energy2D.MaxwellDemon,
      exists n, (n <= length (Energy2D.particles d))%nat
                /\ Energy2D.memory_bits (Energy2D.update d).1
                   = Energy2D.memory_bits d ++ replicate n true)
  /\
  (forall d : Energy2D.MaxwellDemon,
      Energy2D.reachable d -> Forall (fun b => b = true) (Energy2D.memory_bits d)).
Proof.
  split.
  - intros d. exists (Energy2D.crossings (Energy2D.particles d)).
    split; [apply e2d_crossings_le|]. now rewrite e2d_update_spec.
  - intros d Hr. induction Hr as [cut samples | d _ IH]; [constructor|].
    rewrite e2d_update_spec. cbn. apply Forall_app. split; [exact IH|].
    apply Forall_forall. intros b Hb. now apply elem_of_replicate in Hb.
Qed.

Lemma memory_is_append_only_witness :
  Forall (fun b => b = true)
    (Energy2D.memory_bits
       (Energy2D.update (Energy2D.MaxwellDemon_init 2 [(1, 0, 1, 0); (0.5, 0, 3, 1)])).1).
Proof.
  refine (proj2 memory_is_append_only _ _).
  apply Energy2D.reachable_update, Energy2D.reachable_init.
Defined.






(** ** The gate and the walls, particle by particle *)

(** X5.  Judging is idempotent: running the gate again on a particle
    that has not moved changes neither the particle nor the memory. *)
Theorem gate_is_idempotent (p : Energy2D.Particle) (f : Energy2D.Frame) :
  Energy2D.gate (Energy2D.gate p f).1 (Energy2D.gate p f).2 = Energy2D.gate p f.
Proof.
  unfold Energy2D.gate at 1.
  rewrite e2d_gate_x, e2d_gate_processed.
  destruct (Energy2D.in_barrier (Energy2D.x p)); cbn [orb negb andb];
    now destruct (Energy2D.gate p f).
Qed.

Lemma e2d_gate_is_fast p f :
  Energy2D.is_fast (Energy2D.gate p f).1 = Energy2D.is_fast p.
Proof.
  unfold Energy2D.is_fast. rewrite e2d_gate_cut.
  destruct (e2d_gate_velocity p f) as [H|H]; cbn zeta in H; rewrite H, ?Qabs_Qopp;
    reflexivity.
Qed.

Lemma poo_gate_is_fast p f : POO.is_fast (POO.gate p f).1 = POO.is_fast p.
Proof.
  unfold POO.is_fast. destruct (poo_gate_velocity p f) as [[H|H] Hc]; cbn zeta in *;
    rewrite Hc, H, ?Qabs_Qopp; reflexivity.
Qed.

(** X6.  The judgement sorts by speed: whatever its direction on entry,
    a judged fast particle leaves the gate with velocity.x <= 0 and a judged
    slow particle with velocity.x >= 0, and the gate does not change whether
    a particle is fast.  This holds with and without the [processed] flag. *)
Theorem judgement_sorts_by_speed :
  (forall (p : Energy2D.Particle) (f : Energy2D.Frame),
      Energy2D.in_barrier (Energy2D.x p) = true ->
      Energy2D.processed p = false ->
      let q := (Energy2D.gate p f).1 in
      Energy2D.is_fast q = Energy2D.is_fast p
      /\ (Energy2D.is_fast p = true -> Energy2D.velocity_x q <= 0)
      /\ (Energy2D.is_fast p = false -> 0 <= Energy2D.velocity_x q))
  /\
  (forall (p : POO.Particle) (f : POO.Frame),
      POO.in_barrier (POO.x p) = true ->
      let q := (POO.gate p f).1 in
      POO.is_fast q = POO.is_fast p
      /\ (POO.is_fast p = true -> POO.velocity q <= 0)
      /\ (POO.is_fast p = false -> 0 <= POO.velocity q)).
Proof.
  split.
  - intros p f Hin Hp q. subst q. split; [apply e2d_gate_is_fast|].
    unfold Energy2D.gate. rewrite Hin, Hp. cbn [andb negb].
    change (Energy2D.is_fast (Energy2D.mark p)) with (Energy2D.is_fast p).
    change (Energy2D.velocity_x (Energy2D.mark p)) with (Energy2D.velocity_x p).
    destruct (Energy2D.is_fast p), (Qltb 0 (Energy2D.velocity_x p)) eqn:Hv;
      cbn [fst Energy2D.velocity_x Energy2D.bounce Energy2D.mark];
      rewrite ?Qmult_m1; order_facts; split; intros; try discriminate; lra.
  - intros p f Hin q. subst q. split; [apply poo_gate_is_fast|].
    unfold POO.gate. rewrite Hin.
    destruct (POO.is_fast p), (Qltb 0 (POO.velocity p)) eqn:Hv,
             (Qltb (POO.velocity p) 0) eqn:Hw;
      cbn [fst POO.velocity POO.bounce];
      rewrite ?Qmult_m1; order_facts; split; intros; try discriminate; lra.
Qed.

Lemma judgement_sorts_by_speed_witness :
  Energy2D.velocity_x
    (Energy2D.gate (Energy2D.mkParticle 1 0 3 0 2 false) (Energy2D.mkFrame false 0 [])).1 <= 0
  /\ 0 <= POO.velocity (POO.gate (POO.mkParticle 1 0 (-1) 2) (POO.mkFrame false [])).1.
Proof.
  split.
  - refine (proj1 (proj2 (proj1 judgement_sorts_by_speed
              (Energy2D.mkParticle 1 0 3 0 2 false) (Energy2D.mkFrame false 0 []) _ _)) _);
      reflexivity.
  - refine (proj2 (proj2 (proj2 judgement_sorts_by_speed
              (POO.mkParticle 1 0 (-1) 2) (POO.mkFrame false []) _)) _); reflexivity.
Defined.

(** X7.  A wall sends the particle back inside: when a particle that was
    in the box is stopped at a wall by [move], its new velocity component
    points into the box. *)
Theorem walls_send_particles_inward :
  (forall p : Energy2D.Particle,
      Energy2D.in_box p ->
      let q := Energy2D.move p in
      (Energy2D.x p + Energy2D.velocity_x p * 0.01 < 0 -> 0 < Energy2D.velocity_x q) /\
      (2 < Energy2D.x p + Energy2D.velocity_x p * 0.01 -> Energy2D.velocity_x q < 0) /\
      (Energy2D.y p + Energy2D.velocity_y p * 0.01 < -1 -> 0 < Energy2D.velocity_y q) /\
      (1 < Energy2D.y p + Energy2D.velocity_y p * 0.01 -> Energy2D.velocity_y q < 0))
  /\
  (forall p : POO.Particle,
      0 <= POO.x p -> POO.x p <= 2 ->
      let q := POO.move p in
      (POO.x p + POO.velocity p * 0.01 < 0 -> 0 < POO.velocity q) /\
      (2 < POO.x p + POO.velocity p * 0.01 -> POO.velocity q < 0)).
Proof.
  split.
  - intros p (Hx0 & Hx2 & Hy0 & Hy1) q. subst q.
    e2d_walls p; order_facts; rewrite ?Qmult_m1; repeat split; intros; lra.
  - intros p Hx0 Hx2 q. subst q. unfold POO.move.
    destruct (Qltb (POO.x p + POO.velocity p * 0.01) 0) eqn:?;
      [| destruct (Qltb 2 (POO.x p + POO.velocity p * 0.01)) eqn:?];
      cbn [POO.velocity]; order_facts; rewrite ?Qmult_m1; split; intros; lra.
Qed.

Lemma walls_send_particles_inward_witness :
  0 < Energy2D.velocity_x (Energy2D.move (Energy2D.mkParticle 0.005 0 (-1) 0 2 false))
  /\ POO.velocity (POO.move (POO.mkParticle 1.995 0 1 2)) < 0.
Proof.
  split.
  - refine (proj1 (proj1 walls_send_particles_inward
              (Energy2D.mkParticle 0.005 0 (-1) 0 2 false) _) _).
    + repeat split; vm_compute; discriminate.
    + reflexivity.
  - refine (proj2 (proj2 walls_send_particles_inward (POO.mkParticle 1.995 0 1 2) _ _) _).
    + vm_compute. discriminate.
    + vm_compute. discriminate.
    + reflexivity.
Defined.

(** X8.  A particle keeps its colour: [get_colour] gives the same answer
    after any number of frames, with and without the [processed] flag. *)
Theorem colour_is_permanent :
  (forall (p : Energy2D.Particle) (n : nat),
      Energy2DView.get_colour (Energy2D.steps n p) = Energy2DView.get_colour p)
  /\
  (forall (p : POO.Particle) (n : nat),
      POOView.get_colour (POO.steps n p) = POOView.get_colour p).
Proof.
  split; intros p n; induction n as [|n IH]; try reflexivity.
  - rewrite <- IH. cbn [Energy2D.steps].
    destruct (e2d_step_speed (Energy2D.steps n p)) as (Hx & _ & Hc).
    unfold Energy2DView.get_colour, Energy2D.is_fast. now rewrite Hx, Hc.
  - rewrite <- IH. cbn [POO.steps].
    destruct (poo_step_speed (POO.steps n p)) as (Hx & Hc).
    unfold POOView.get_colour, POO.is_fast. now rewrite Hx, Hc.
Qed.

(** ** A frame of Maxwell_Demon_POO.py *)

Lemma poo_gate_fst p f f' : (POO.gate p f).1 = (POO.gate p f').1.
Proof.
  unfold POO.gate.
  repeat match goal with
         | |- context [if ?b then _ else _] => destruct b
         end; reflexivity.
Qed.

Lemma poo_visit_snd p f :
  (POO.visit p f).2 = if POOView.opens_for p then POO.let_through f else f.
Proof.
  unfold POOView.opens_for, POO.visit, POO.gate.
  repeat match goal with
         | |- context [if ?b then _ else _] => destruct b eqn:?
         end; cbn in *; reflexivity || discriminate.
Qed.

Lemma poo_for_particles_cons p ps f :
  POO.for_particles (p :: ps) f
  = ((POO.visit p f).1 :: (POO.for_particles ps (POO.visit p f).2).1,
     (POO.for_particles ps (POO.visit p f).2).2).
Proof.
  cbn [POO.for_particles].
  destruct (POO.visit p f) as [p' f1]. cbn [fst snd].
  now destruct (POO.for_particles ps f1).
Qed.

Lemma poo_let_through_iter n f :
  Nat.iter n POO.let_through f
  = POO.mkFrame (POO.trapdoor_open f || (0 <? n)%nat) (POO.bits f ++ replicate n true).
Proof.
  induction n as [|n IH].
  - destruct f. cbn. now rewrite orb_false_r, app_nil_r.
  - rewrite Nat.iter_succ, IH. unfold POO.let_through. cbn.
    rewrite orb_true_r, <- app_assoc. do 2 f_equal.
    clear. induction n as [|n IH]; [reflexivity|]. cbn. now rewrite IH.
Qed.

Lemma poo_for_particles_spec ps f :
  POO.for_particles ps f
  = (map POO.step ps, Nat.iter (POOView.crossings ps) POO.let_through f).
Proof.
  revert f. induction ps as [|p ps IH]; intros f; [reflexivity|].
  rewrite poo_for_particles_cons, IH. cbn [fst snd map]. f_equal.
  - f_equal. apply poo_gate_fst.
  - rewrite poo_visit_snd. unfold POOView.crossings. cbn [List.filter].
    destruct (POOView.opens_for p); [|reflexivity].
    cbn [length]. now rewrite Nat.iter_succ_r.
Qed.

(** X9.  A frame of Maxwell_Demon_POO.py treats the particles one by one:
    each particle's new state depends on its own old state only, the memory
    keeps its bits and gets one [True] for each particle the gate opens for
    (at most one per particle), and the trapdoor is drawn open exactly when
    there is such a particle. *)
Theorem poo_frame (d : POO.MaxwellDemon) :
  let n := POOView.crossings (POO.particles d) in
  POO.update d
  = ({| POO.n_particles := POO.n_particles d;
        POO.demon_cut_velocity := POO.demon_cut_velocity d;
        POO.memory_bits := POO.memory_bits d ++ replicate n true;
        POO.particles := map POO.step (POO.particles d) |}, (0 <? n)%nat)
  /\ (n <= length (POO.particles d))%nat.
Proof.
  intros n. split.
  - unfold POO.update. rewrite poo_for_particles_spec, poo_let_through_iter. reflexivity.
  - subst n. unfold POOView.crossings. induction (POO.particles d) as [|p ps IH];
      [reflexivity|]. cbn [List.filter]. destruct (POOView.opens_for p); cbn [length]; lia.
Qed.

(** ** A frame of the scripts, particle by particle *)

Section ScriptLoop.

Variable k : Q -> Q -> list bool -> bool -> Q * Q * list bool * bool.

(** The iteration reads the memory and the flag only to extend them. *)
Hypothesis k_local :
  forall x v bits o,
    k x v bits o
    = (Script.new_x k x v, Script.new_v k x v,
       bits ++ (if Script.opens k x v then [true] else []),
       o || Script.opens k x v).

Lemma at_index_spec i w o x v :
  positions w !! i = Some x ->
  velocities w !! i = Some v ->
  at_index k i (w, o)
  = Some (mkWorld (<[i:=Script.new_x k x v]> (positions w))
            (<[i:=Script.new_v k x v]> (velocities w))
            (memory_bits w ++ (if Script.opens k x v then [true] else [])),
          o || Script.opens k x v).
Proof.
  intros Hx Hv. unfold at_index. rewrite Hx, Hv. cbn. now rewrite k_local.
Qed.

Lemma script_loop range :
  forall w o,
    NoDup range ->
    Forall (fun i => (i < length (positions w))%nat /\ (i < length (velocities w))%nat) range ->
    exists w' o' c,
      for_range (at_index k) range (w, o) = Some (w', o')
      /\ length (positions w') = length (positions w)
      /\ length (velocities w') = length (velocities w)
      /\ (forall i x v, i ∈ range ->
                        positions w !! i = Some x -> velocities w !! i = Some v ->
                        positions w' !! i = Some (Script.new_x k x v)
                        /\ velocities w' !! i = Some (Script.new_v k x v))
      /\ (forall i, i ∉ range ->
                    positions w' !! i = positions w !! i
                    /\ velocities w' !! i = velocities w !! i)
      /\ (c <= length range)%nat
      /\ memory_bits w' = memory_bits w ++ replicate c true
      /\ o' = o || (0 <? c)%nat.
Proof.
  induction range as [|i0 range IH]; intros w o Hnd Hall.
  - exists w, o, 0%nat. cbn. rewrite app_nil_r, orb_false_r.
    do 3 (split; [reflexivity|]). split; [|repeat split; auto].
    intros i x v Hi. now apply elem_of_nil in Hi.
  - apply NoDup_cons in Hnd as [Hi0 Hnd]. apply Forall_cons in Hall as [[Hpi Hvi] Hall].
    destruct (lookup_lt_is_Some_2 _ _ Hpi) as [x0 Hx0].
    destruct (lookup_lt_is_Some_2 _ _ Hvi) as [v0 Hv0].
    cbn [for_range]. rewrite (at_index_spec i0 w o x0 v0 Hx0 Hv0). cbn [mbind option_bind].
    set (w1 := mkWorld _ _ _).
    destruct (IH w1 (o || Script.opens k x0 v0) Hnd)
      as (w' & o' & c & Hrun & Hlp & Hlv & Hin & Hout & Hc & Hm & Ho).
    { subst w1. cbn. now rewrite !length_insert. }
    subst w1. cbn [positions velocities memory_bits] in *.
    rewrite length_insert in Hlp, Hlv.
    exists w', o', ((if Script.opens k x0 v0 then 1 else 0) + c)%nat.
    split; [exact Hrun|]. split; [exact Hlp|]. split; [exact Hlv|]. split; [|split].
    + intros i x v Hi Hx Hv. apply elem_of_cons in Hi as [-> | Hi].
      * destruct (Hout i0 Hi0) as [-> ->].
        rewrite !list_lookup_insert_eq by assumption.
        assert (x = x0) by congruence. assert (v = v0) by congruence. now subst.
      * assert (i0 <> i) by (intros ->; contradiction).
        apply Hin; [assumption | | ]; now rewrite list_lookup_insert_ne.
    + intros i Hi. apply not_elem_of_cons in Hi as [Hne Hi].
      destruct (Hout i Hi) as [-> ->].
      now rewrite !list_lookup_insert_ne by congruence.
    + cbn [length]. rewrite Hm, Ho, <- app_assoc.
      destruct (Script.opens k x0 v0); cbn [Nat.add].
      * split; [lia|]. split; [reflexivity | now destruct o].
      * rewrite orb_false_r. split; [lia|]. split; reflexivity.
Qed.

Lemma script_frame w :
  (n_particles <= length (positions w))%nat ->
  (n_particles <= length (velocities w))%nat ->
  exists w' o c,
    for_range (at_index k) (seq 0 n_particles) (w, false) = Some (w', o)
    /\ Script.pointwise k w w' o c.
Proof.
  intros Hp Hv.
  destruct (script_loop (seq 0 n_particles) w false)
    as (w' & o' & c & Hrun & Hlp & Hlv & Hin & Hout & Hc & Hm & Ho).
  { apply NoDup_seq. }
  { apply Forall_forall. intros i Hi. apply elem_of_seq in Hi. lia. }
  exists w', o', c. split; [exact Hrun|]. unfold Script.pointwise.
  rewrite length_seq in Hc. repeat split; auto.
  - apply (Hin i x v); auto. apply elem_of_seq. lia.
  - apply (Hin i x v); auto. apply elem_of_seq. lia.
  - apply Hout. rewrite elem_of_seq. lia.
  - apply Hout. rewrite elem_of_seq. lia.
Qed.

End ScriptLoop.

Lemma maxxxx_local x v bits o :
  Script.maxxxx x v bits o
  = (Script.new_x Script.maxxxx x v, Script.new_v Script.maxxxx x v,
     bits ++ (if Script.opens Script.maxxxx x v then [true] else []),
     o || Script.opens Script.maxxxx x v).
Proof.
  unfold Script.new_x, Script.new_v, Script.opens, Script.maxxxx.
  destruct (MAXXXX.rebound x v) as [x1 v1]. unfold MAXXXX.demon.
  destruct (MAXXXX.in_barrier x1), (negb (Qeq_bool (Qabs v1) 2)); cbn;
    rewrite ?app_nil_r, ?orb_false_r, ?orb_true_r; reflexivity.
Qed.

Lemma max_demon_local x v bits o :
  Script.max_demon x v bits o
  = (Script.new_x Script.max_demon x v, Script.new_v Script.max_demon x v,
     bits ++ (if Script.opens Script.max_demon x v then [true] else []),
     o || Script.opens Script.max_demon x v).
Proof.
  unfold Script.new_x, Script.new_v, Script.opens, Script.max_demon.
  destruct (MaxDEMON.rebound x v) as [x1 v1]. unfold MaxDEMON.demon.
  destruct (MaxDEMON.in_barrier x1), (Qltb x1 1.0 && Qltb 2.0 (Qabs v1)),
           (Qltb 1.0 x1 && Qltb (Qabs v1) 2.0); cbn;
    rewrite ?app_nil_r, ?orb_false_r, ?orb_true_r; reflexivity.
Qed.

Lemma animated_local x v bits o :
  Script.animated x v bits o
  = (Script.new_x Script.animated x v, Script.new_v Script.animated x v,
     bits ++ (if Script.opens Script.animated x v then [true] else []),
     o || Script.opens Script.animated x v).
Proof.
  unfold Script.new_x, Script.new_v, Script.opens, Script.animated.
  destruct (Animated.rebound x v) as [x1 v1]. unfold Animated.demon.
  destruct (Qltb 0.98 x1 && Qltb x1 1.0 && (Qltb 2 v1 && Qltb v1 4)); cbn;
    rewrite ?app_nil_r, ?orb_false_r, ?orb_true_r; reflexivity.
Qed.

(** X10.  A frame of each script runs to its end on arrays of at least
    [n_particles] entries and treats the particles one by one: entry [i] of
    the new arrays is what one iteration makes of entry [i] of the old ones,
    the arrays keep their lengths, the memory keeps its bits and gets at
    most one [True] per particle, and the trapdoor is drawn open exactly
    when a bit was added.  Max_DEMON.py also counts the frame. *)
Theorem script_frame_is_pointwise (w : World) :
  (n_particles <= length (positions w))%nat ->
  (n_particles <= length (velocities w))%nat ->
  (exists w' o c, MAXXXX.update w = Some (w', o)
                  /\ Script.pointwise Script.maxxxx w w' o c)
  /\ (forall t, exists w' o c, MaxDEMON.update (w, t) = Some (w', (t + 1)%nat, o)
                               /\ Script.pointwise Script.max_demon w w' o c)
  /\ (exists w' o c, Animated.update w = Some (w', o)
                     /\ Script.pointwise Script.animated w w' o c).
Proof.
  intros Hp Hv. split; [|split].
  - exact (script_frame Script.maxxxx maxxxx_local w Hp Hv).
  - intros t.
    destruct (script_frame Script.max_demon max_demon_local w Hp Hv)
      as (w' & o & c & Hrun & Hpw).
    exists w', o, c. split; [|exact Hpw].
    unfold MaxDEMON.update.
    change MaxDEMON.body with (at_index Script.max_demon). now rewrite Hrun.
  - exact (script_frame Script.animated animated_local w Hp Hv).
Qed.

Lemma script_frame_is_pointwise_witness :
  exists w' o c,
    MaxDEMON.update (mkWorld (replicate 20 0.96) (replicate 20 3) [], 7%nat)
    = Some (w', 8%nat, o)
    /\ Script.pointwise Script.max_demon
         (mkWorld (replicate 20 0.96) (replicate 20 3) []) w' o c.
Proof.
  refine (proj1 (proj2 (script_frame_is_pointwise
            (mkWorld (replicate 20 0.96) (replicate 20 3) []) _ _)) 7%nat);
    vm_compute; lia.
Defined.

(** ** What an iteration of a script does to one particle *)

Lemma maxxxx_new_x_in_box x v :
  0 <= Script.new_x Script.maxxxx x v /\ Script.new_x Script.maxxxx x v <= 2.
Proof.
  unfold Script.new_x, Script.maxxxx, MAXXXX.rebound, MAXXXX.demon.
  destruct (Qltb (x + v * 0.01) 0) eqn:?; [|destruct (Qltb 2 (x + v * 0.01)) eqn:?];
    repeat match goal with
           | |- context [if ?b then _ else _] => destruct b
           end; cbn; order_facts; split; lra.
Qed.

Lemma max_demon_new_x_in_box x v :
  0 <= Script.new_x Script.max_demon x v /\ Script.new_x Script.max_demon x v <= 2.
Proof.
  unfold Script.new_x, Script.max_demon, MaxDEMON.rebound, MaxDEMON.demon,
    MaxDEMON.in_barrier.
  destruct (Qltb (x + v * 0.01) 0) eqn:?; [|destruct (Qltb 2 (x + v * 0.01)) eqn:?];
    match goal with
    | |- context [Qltb 0.98 ?a && Qltb ?a 1.02] =>
        destruct (Qltb 0.98 a) eqn:?, (Qltb a 1.02) eqn:?
    end; cbn [andb];
    repeat match goal with
           | |- context [if ?b then _ else _] => destruct b
           end; cbn; order_facts; split; lra.
Qed.

Lemma maxxxx_new_v_speed x v : Qabs (Script.new_v Script.maxxxx x v) = Qabs v.
Proof.
  unfold Script.new_v, Script.maxxxx, MAXXXX.rebound, MAXXXX.demon.
  repeat match goal with
         | |- context [if ?b then _ else _] => destruct b
         end; cbn [fst snd]; rewrite ?Qmult_m1, ?Qabs_Qopp; reflexivity.
Qed.

Lemma max_demon_new_v_speed x v : Qabs (Script.new_v Script.max_demon x v) = Qabs v.
Proof.
  unfold Script.new_v, Script.max_demon, MaxDEMON.rebound, MaxDEMON.demon.
  repeat match goal with
         | |- context [if ?b then _ else _] => destruct b
         end; cbn [fst snd]; rewrite ?Qmult_m1, ?Qabs_Qopp; reflexivity.
Qed.

Lemma animated_new_v_speed x v : Qabs (Script.new_v Script.animated x v) = Qabs v.
Proof.
  unfold Script.new_v, Script.animated, Animated.rebound, Animated.demon.
  repeat match goal with
         | |- context [if ?b then _ else _] => destruct b
         end; cbn [fst snd]; rewrite ?Qmult_m1, ?Qabs_Qopp; reflexivity.
Qed.

(** Where an entry of the new arrays comes from. *)
Lemma pointwise_position k w w' o c i x' :
  Script.pointwise k w w' o c ->
  (n_particles <= length (velocities w))%nat ->
  (i < n_particles)%nat ->
  positions w' !! i = Some x' ->
  exists x v, positions w !! i = Some x /\ velocities w !! i = Some v
              /\ x' = Script.new_x k x v.
Proof.
  intros (Hlp & Hlv & Hin & _) Hv Hi Hx'.
  destruct (lookup_lt_is_Some_2 (positions w) i) as [x Hx].
  { rewrite <- Hlp. now apply lookup_lt_Some in Hx'. }
  destruct (lookup_lt_is_Some_2 (velocities w) i) as [v Hv0]; [lia|].
  exists x, v. destruct (Hin i x v Hi Hx Hv0) as [Hnx _]. repeat split; congruence.
Qed.

Lemma pointwise_velocity k w w' o c i v v' :
  Script.pointwise k w w' o c ->
  (n_particles <= length (positions w))%nat ->
  velocities w !! i = Some v ->
  velocities w' !! i = Some v' ->
  v' = v \/ exists x, positions w !! i = Some x /\ v' = Script.new_v k x v.
Proof.
  intros (Hlp & Hlv & Hin & Hout & _) Hp Hv0 Hv'.
  destruct (Nat.lt_ge_cases i n_particles) as [Hi|Hi].
  - destruct (lookup_lt_is_Some_2 (positions w) i) as [x Hx]; [lia|].
    right. exists x. destruct (Hin i x v Hi Hx Hv0) as [_ Hnv]. split; congruence.
  - left. destruct (Hout i Hi) as [_ E]. congruence.
Qed.

Lemma colours_of_speeds w w' :
  length (velocities w') = length (velocities w) ->
  (forall i v v', velocities w !! i = Some v -> velocities w' !! i = Some v' ->
                  Qabs v' = Qabs v) ->
  Script.colours w' = Script.colours w.
Proof.
  intros Hlen Hs. apply list_eq. intros i. unfold Script.colours.
  change (map ?f ?l) with (f <$> l). rewrite !list_lookup_fmap.
  destruct (velocities w !! i) as [v|] eqn:Hv, (velocities w' !! i) as [v'|] eqn:Hv'; cbn.
  - now rewrite (Hs i v v' Hv Hv').
  - apply lookup_lt_Some in Hv. apply lookup_ge_None in Hv'. lia.
  - apply lookup_lt_Some in Hv'. apply lookup_ge_None in Hv. lia.
  - reflexivity.
Qed.

(** X11.  MAXXXX.py and Max_DEMON.py keep the particles in the box: after
    a frame each of the [n_particles] positions lies in [0, 2], whatever the
    positions and velocities were before (in Max_DEMON.py also after the
    gate has displaced the particle). *)
Theorem script_positions_stay_in_box (w : World) :
  (n_particles <= length (positions w))%nat ->
  (n_particles <= length (velocities w))%nat ->
  (exists w' o, MAXXXX.update w = Some (w', o)
                /\ forall i x', (i < n_particles)%nat -> positions w' !! i = Some x' ->
                                0 <= x' /\ x' <= 2)
  /\ (forall t, exists w' o, MaxDEMON.update (w, t) = Some (w', (t + 1)%nat, o)
                /\ forall i x', (i < n_particles)%nat -> positions w' !! i = Some x' ->
                                0 <= x' /\ x' <= 2).
Proof.
  intros Hp Hv. split.
  - destruct (script_frame Script.maxxxx maxxxx_local w Hp Hv) as (w' & o & c & Hrun & Hpw).
    exists w', o. split; [exact Hrun|]. intros i x' Hi Hx'.
    destruct (pointwise_position _ _ _ _ _ _ _ Hpw Hv Hi Hx') as (x & v & _ & _ & ->).
    apply maxxxx_new_x_in_box.
  - intros t.
    destruct (script_frame Script.max_demon max_demon_local w Hp Hv)
      as (w' & o & c & Hrun & Hpw).
    exists w', o. split.
    + unfold MaxDEMON.update.
      change MaxDEMON.body with (at_index Script.max_demon). now rewrite Hrun.
    + intros i x' Hi Hx'.
      destruct (pointwise_position _ _ _ _ _ _ _ Hpw Hv Hi Hx') as (x & v & _ & _ & ->).
      apply max_demon_new_x_in_box.
Qed.

Lemma script_positions_stay_in_box_witness :
  exists w' o,
    MAXXXX.update (mkWorld (replicate 20 1.999) (replicate 20 300) []) = Some (w', o)
    /\ forall i x', (i < n_particles)%nat -> positions w' !! i = Some x' ->
                    0 <= x' /\ x' <= 2.
Proof.
  refine (proj1 (script_positions_stay_in_box
            (mkWorld (replicate 20 1.999) (replicate 20 300) []) _ _));
    vm_compute; lia.
Defined.

(** X12.  The scripts only ever reverse velocities: after a frame every
    velocity has the absolute value it had before, and the colours that
    MAXXXX.py and Max_DEMON.py give the particles ([|v| > 2]) are the same
    as before the frame. *)
Theorem script_speeds_are_conserved (w : World) :
  (n_particles <= length (positions w))%nat ->
  (n_particles <= length (velocities w))%nat ->
  (exists w' o, MAXXXX.update w = Some (w', o)
                /\ (forall i v v', velocities w !! i = Some v ->
                                   velocities w' !! i = Some v' -> Qabs v' = Qabs v)
                /\ Script.colours w' = Script.colours w)
  /\ (forall t, exists w' o, MaxDEMON.update (w, t) = Some (w', (t + 1)%nat, o)
                /\ (forall i v v', velocities w !! i = Some v ->
                                   velocities w' !! i = Some v' -> Qabs v' = Qabs v)
                /\ Script.colours w' = Script.colours w)
  /\ (exists w' o, Animated.update w = Some (w', o)
                   /\ (forall i v v', velocities w !! i = Some v ->
                                      velocities w' !! i = Some v' -> Qabs v' = Qabs v)).
Proof.
  intros Hp Hv. split; [|split].
  - destruct (script_frame Script.maxxxx maxxxx_local w Hp Hv) as (w' & o & c & Hrun & Hpw).
    assert (Hs : forall i v v', velocities w !! i = Some v ->
                                velocities w' !! i = Some v' -> Qabs v' = Qabs v).
    { intros i v v' Hv0 Hv'.
      destruct (pointwise_velocity _ _ _ _ _ _ _ _ Hpw Hp Hv0 Hv') as [-> | (x & _ & ->)];
        [reflexivity | apply maxxxx_new_v_speed]. }
    exists w', o. repeat split; auto. apply colours_of_speeds; [apply Hpw | exact Hs].
  - intros t.
    destruct (script_frame Script.max_demon max_demon_local w Hp Hv)
      as (w' & o & c & Hrun & Hpw).
    assert (Hs : forall i v v', velocities w !! i = Some v ->
                                velocities w' !! i = Some v' -> Qabs v' = Qabs v).
    { intros i v v' Hv0 Hv'.
      destruct (pointwise_velocity _ _ _ _ _ _ _ _ Hpw Hp Hv0 Hv') as [-> | (x & _ & ->)];
        [reflexivity | apply max_demon_new_v_speed]. }
    exists w', o. split; [|split; [exact Hs | apply colours_of_speeds; [apply Hpw | exact Hs]]].
    unfold MaxDEMON.update.
    change MaxDEMON.body with (at_index Script.max_demon). now rewrite Hrun.
  - destruct (script_frame Script.animated animated_local w Hp Hv)
      as (w' & o & c & Hrun & Hpw).
    exists w', o. split; [exact Hrun|]. intros i v v' Hv0 Hv'.
    destruct (pointwise_velocity _ _ _ _ _ _ _ _ Hpw Hp Hv0 Hv') as [-> | (x & _ & ->)];
      [reflexivity | apply animated_new_v_speed].
Qed.

Lemma script_speeds_are_conserved_witness :
  exists w' o,
    MAXXXX.update (mkWorld (replicate 20 1) (replicate 20 2) []) = Some (w', o)
    /\ (forall i v v', velocities (mkWorld (replicate 20 1) (replicate 20 2) []) !! i = Some v ->
                       velocities w' !! i = Some v' -> Qabs v' = Qabs v)
    /\ Script.colours w' = Script.colours (mkWorld (replicate 20 1) (replicate 20 2) []).
Proof.
  refine (proj1 (script_speeds_are_conserved
            (mkWorld (replicate 20 1) (replicate 20 2) []) _ _));
    vm_compute; lia.
Defined.

Lemma max_demon_in_barrier_iff x :
  MaxDEMON.in_barrier x = true <-> 0.98 < x /\ x < 1.02.
Proof. unfold MaxDEMON.in_barrier. now rewrite andb_true_iff, !Qltb_lt. Qed.

Lemma max_demon_outside x : x <= 0.98 \/ 1.02 <= x -> MaxDEMON.in_barrier x = false.
Proof.
  intros H. apply not_true_iff_false. rewrite max_demon_in_barrier_iff. lra.
Qed.

(** X13.  The trapdoor of Max_DEMON.py puts a particle on the far side:
    a fast particle let through from the left of the line lands right of it
    and outside the zone, a slow particle let through from the right lands
    left of it and outside the zone; any other particle in the zone stays
    where it is, has its velocity reversed and adds no bit. *)
Theorem max_demon_trapdoor (x v : Q) (bits : list bool) (trapdoor_open : bool) :
  MaxDEMON.in_barrier x = true ->
  let r := MaxDEMON.demon x v bits trapdoor_open in
  (x < 1 -> 2 < Qabs v ->
   1 < r.1.1.1 /\ MaxDEMON.in_barrier r.1.1.1 = false /\ r.1.2 = bits ++ [true])
  /\ (1 < x -> Qabs v < 2 ->
      r.1.1.1 < 1 /\ MaxDEMON.in_barrier r.1.1.1 = false /\ r.1.2 = bits ++ [true])
  /\ (~ (x < 1 /\ 2 < Qabs v) -> ~ (1 < x /\ Qabs v < 2) ->
      r = (x, - v, bits, trapdoor_open)).
Proof.
  intros Hin r. subst r. pose proof (proj1 (max_demon_in_barrier_iff x) Hin) as [H1 H2].
  unfold MaxDEMON.demon. rewrite Hin.
  destruct (Qltb x 1.0) eqn:Hx, (Qltb 2.0 (Qabs v)) eqn:Hv,
           (Qltb 1.0 x) eqn:Hx', (Qltb (Qabs v) 2.0) eqn:Hv';
    cbn [andb fst snd]; rewrite ?Qmult_m1; order_facts;
    (split; [|split]); intros;
    try (exfalso; lra); try reflexivity;
    try (split; [lra | split; [apply max_demon_outside; lra | reflexivity]]);
    exfalso; tauto.
Qed.

Lemma max_demon_trapdoor_witness :
  1 < (MaxDEMON.demon 0.99 3 [] false).1.1.1
  /\ MaxDEMON.in_barrier (MaxDEMON.demon 0.99 3 [] false).1.1.1 = false
  /\ (MaxDEMON.demon 0.99 3 [] false).1.2 = [] ++ [true].
Proof.
  refine (proj1 (max_demon_trapdoor 0.99 3 [] false _) _ _); reflexivity.
Defined.

(** X14.  In Maxwell_demon_animated.py an edge turns a particle back
    without holding it: when a particle in [0, 2] is carried past an edge,
    its position is left outside the box and its velocity is reversed, so
    that it points back towards the box. *)
Theorem animated_edge_turns_particle_back (x v : Q) :
  0 <= x -> x <= 2 ->
  let x1 := Script.new_x Script.animated x v in
  let v1 := Script.new_v Script.animated x v in
  (x + v < 0 -> x1 < 0 /\ v1 = - v /\ 0 < v1)
  /\ (2 < x + v -> 2 < x1 /\ v1 = - v /\ v1 < 0).
Proof.
  intros Hx0 Hx2 x1 v1.
  assert (E : x + v < 0 \/ 2 < x + v -> x1 = x + v /\ v1 = - v).
  { intros Hout. subst x1 v1.
    unfold Script.new_x, Script.new_v, Script.animated, Animated.rebound.
    rewrite Qmult_m1.
    destruct (Qltb (x + v) 0) eqn:?, (Qltb 2 (x + v)) eqn:?; cbn [orb]; order_facts;
      try (exfalso; lra); unfold Animated.demon; now destruct (_ && _). }
  split; intros Hout.
  - destruct E as [-> ->]; [now left|]. repeat split; lra.
  - destruct E as [-> ->]; [now right|]. repeat split; lra.
Qed.

Lemma animated_edge_turns_particle_back_witness :
  2 < Script.new_x Script.animated 1.5 3
  /\ Script.new_v Script.animated 1.5 3 = - 3
  /\ Script.new_v Script.animated 1.5 3 < 0.
Proof.
  refine (proj2 (animated_edge_turns_particle_back 1.5 3 _ _) _);
    [vm_compute; discriminate | vm_compute; discriminate | reflexivity].
Defined.

(** ** Lingering at the gate *)








(** ** A frame of Maxwell_Demon_POO_2D_energy.py as a whole *)

Lemma e2d_update_trapdoor d :
  (Energy2D.update d).2 = (0 <? Energy2D.crossings (Energy2D.particles d))%nat.
Proof.
  unfold Energy2D.update.
  pose proof (e2d_for_particles_snd (Energy2D.particles d)
                (Energy2D.mkFrame false 0 (Energy2D.memory_bits d))) as H2.
  destruct (Energy2D.for_particles _ _) as [ps f]. cbn [snd] in H2. subst f.
  rewrite e2d_let_through_iter. cbn [Energy2D.new_bits_added Energy2D.trapdoor_open].
  now destruct (0 <? _)%nat.
Qed.

(** X17.  A frame of Maxwell_Demon_POO_2D_energy.py treats the particles
    one by one and settles the ledger once: each particle's new state
    depends on its own old state only; with [n] the number of particles the
    gate opens for (at most one per particle), the memory gets [n] times
    [True], the history gets the one sample (new bit count, new bit count
    times the Landauer constant) if [n > 0] and nothing otherwise, and the
    trapdoor is drawn open exactly when [n > 0]; the particle count, the
    threshold and the Landauer constant are never written. *)
Theorem energy_frame (d : Energy2D.MaxwellDemon) :
  let n := Energy2D.crossings (Energy2D.particles d) in
  let total_bits := (length (Energy2D.memory_bits d) + n)%nat in
  Energy2D.update d
  = ({| Energy2D.n_particles := Energy2D.n_particles d;
        Energy2D.demon_cut_velocity := Energy2D.demon_cut_velocity d;
        Energy2D.memory_bits := Energy2D.memory_bits d ++ replicate n true;
        Energy2D.energy_cost :=
          if (0 <? n)%nat
          then Energy2D.energy_cost d ++ [Q_of_nat total_bits * Energy2D.landauer_constant d]
          else Energy2D.energy_cost d;
        Energy2D.bit_history :=
          if (0 <? n)%nat then Energy2D.bit_history d ++ [total_bits]
          else Energy2D.bit_history d;
        Energy2D.landauer_constant := Energy2D.landauer_constant d;
        Energy2D.particles := map Energy2D.step (Energy2D.particles d) |},
     (0 <? n)%nat)
  /\ (n <= length (Energy2D.particles d))%nat.
Proof.
  intros n total_bits. split; [|apply e2d_crossings_le].
  rewrite (surjective_pairing (Energy2D.update d)).
  now rewrite e2d_update_spec, e2d_update_trapdoor.
Qed.

(** ** Particles the gates do not see *)

(** X18.  The demon of Maxwell_demon_animated.py never opens the
    trapdoor for a particle that was in the box when the frame began: a
    particle landing in (0.98, 1) with a velocity above 2 started left of -1.
    Only a particle coming back from outside the box can add a bit. *)
Theorem animated_gate_ignores_the_box (x v : Q) (bits : list bool) (trapdoor_open : bool) :
  0 <= x ->
  Script.opens Script.animated x v = false
  /\ Script.animated x v bits trapdoor_open
     = (Script.new_x Script.animated x v, Script.new_v Script.animated x v,
        bits, trapdoor_open).
Proof.
  intros Hx.
  assert (H : Script.opens Script.animated x v = false).
  { unfold Script.opens, Script.animated, Animated.rebound, Animated.demon.
    destruct (Qltb (x + v) 0) eqn:H0, (Qltb 2 (x + v)) eqn:H2; cbn [orb];
      destruct (Qltb 0.98 (x + v)) eqn:H3, (Qltb (x + v) 1.0) eqn:H4; cbn [andb];
      try reflexivity; try (exfalso; order_facts; lra);
      destruct (Qltb 2 v) eqn:H5; cbn [andb]; try reflexivity;
      exfalso; order_facts; lra. }
  split; [exact H|]. rewrite animated_local, H. now rewrite app_nil_r, orb_false_r.
Qed.

Lemma animated_gate_ignores_the_box_witness :
  Script.opens Script.animated 0.5 3 = false.
Proof.
  refine (proj1 (animated_gate_ignores_the_box 0.5 3 [] false _)).
  vm_compute. discriminate.
Defined.


